(** * Slit-lamp camera: recording orchestration and storage resolution

  A shallow embedding of the Python package [slit_lamp_camera]
  ([storage.py], [gpio_io.py], [camera.py], [recorder.py], [cli.py])
  together with the properties its specification states about it.

  Conventions.
  - A Python [str] is a [string], the UTF-8 text of it; labels and paths
    are compared byte by byte, which is the code-point order of Python
    for UTF-8 text. [str.upper], which goes by the Unicode tables of the
    interpreter, is an input ([Storage.str_upper]).
  - A [pathlib.Path] is a [Path]: the root and the list of components,
    as [PurePosixPath] keeps them.
  - What the operating system decides (the output of [lsblk], whether a
    directory is writable, whether a tool is installed, how a process
    reacts to a signal, the clock) is an input: a field of an
    environment record handed to the function that asks for it.
  - External calls are recorded in a trace of [Action]s, so that "was
    never called" and "was called once" are statements about data. *)

From Stdlib Require Import List String Ascii Bool Arith PeanoNat NArith ZArith QArith Lia.
From Stdlib Require Import Sorting.Permutation Sorting.Sorted DecimalString.
Import ListNotations.
Close Scope Q_scope.
Open Scope string_scope.
Open Scope list_scope.

Set Implicit Arguments.

(* ================================================================== *)
(** * Python strings *)
(* ================================================================== *)

Module PyStr.

Definition is_ascii_lower (c : ascii) : bool :=
  (97 <=? nat_of_ascii c)%nat && (nat_of_ascii c <=? 122)%nat.

Definition is_ascii_upper (c : ascii) : bool :=
  (65 <=? nat_of_ascii c)%nat && (nat_of_ascii c <=? 90)%nat.

Definition upper_char (c : ascii) : ascii :=
  if is_ascii_lower c then ascii_of_nat (nat_of_ascii c - 32) else c.

Definition lower_char (c : ascii) : ascii :=
  if is_ascii_upper c then ascii_of_nat (nat_of_ascii c + 32) else c.

Fixpoint map_chars (f : ascii -> ascii) (s : string) : string :=
  match s with
  | EmptyString => EmptyString
  | String c s' => String (f c) (map_chars f s')
  end.

(** The letters a-z in upper case: what [s.upper()] is when [s] is ASCII
    text. The example inputs take it for [str.upper]. *)
Definition upper_ascii (s : string) : string := map_chars upper_char s.

(** The letters A-Z in lower case. The code compares [s.lower()] with
    the words usb, mmc and true only, and the letters of these words are
    the lower case of no character but their ASCII capitals: for these
    comparisons it is [s.lower()]. *)
Definition lower (s : string) : string := map_chars lower_char s.

(** [s.startswith(p)] *)
Definition startswith (s p : string) : bool := String.prefix p s.

(** Truthiness of a value that is [None] or a [str]. *)
Definition truthy (o : option string) : bool :=
  match o with
  | None => false
  | Some s => negb (String.eqb s "")
  end.

(** [a or b] on such values. *)
Definition or_else (a b : option string) : option string :=
  if truthy a then a else b.

(** [(a or "")] *)
Definition or_empty (a : option string) : string :=
  match or_else a (Some "") with
  | Some s => s
  | None => ""
  end.

(** [sep.join(parts)] *)
Fixpoint join (sep : string) (l : list string) : string :=
  match l with
  | [] => ""
  | [x] => x
  | x :: l' => x ++ sep ++ join sep l'
  end.

(** [s.split("/")], with [cur] the piece collected so far (reversed). *)
Fixpoint split_slash_aux (s : string) (cur : list ascii) : list string :=
  match s with
  | EmptyString => [string_of_list_ascii (rev cur)]
  | String c s' =>
      if Ascii.eqb c "/"%char
      then string_of_list_ascii (rev cur) :: split_slash_aux s' []
      else split_slash_aux s' (c :: cur)
  end.

Definition split_slash (s : string) : list string := split_slash_aux s [].

(** [s.rfind(".")], as [None] for [-1]. *)
Fixpoint rfind_dot_aux (s : string) (i : nat) (last : option nat) : option nat :=
  match s with
  | EmptyString => last
  | String c s' =>
      rfind_dot_aux s' (S i) (if Ascii.eqb c "."%char then Some i else last)
  end.

Definition rfind_dot (s : string) : option nat := rfind_dot_aux s 0 None.

End PyStr.

(* ================================================================== *)
(** * pathlib *)
(* ================================================================== *)

Module Pathlib.

(** A pure POSIX path: [root] is [""], ["/"] or ["//"]. *)
Record Path : Type := mkPath {
  root : string;
  parts : list string
}.

Definition keep_part (x : string) : bool :=
  negb (String.eqb x "") && negb (String.eqb x ".").

(** [posixpath.splitroot]: one leading slash, exactly two, or none. *)
Definition splitroot (p : string) : string * string :=
  match p with
  | String "/" (String "/" (String "/" r)) => ("/", String "/" (String "/" r))
  | String "/" (String "/" r) => ("//", r)
  | String "/" r => ("/", r)
  | _ => ("", p)
  end.

(** [Path(s)] *)
Definition of_str (s : string) : Path :=
  let '(rt, rel) := splitroot s in
  mkPath rt (filter keep_part (PyStr.split_slash rel)).

(** [str(p)] *)
Definition str (p : Path) : string :=
  match root p, parts p with
  | "", [] => "."
  | rt, ps => rt ++ PyStr.join "/" ps
  end.

(** [p / key] *)
Definition truediv (p : Path) (key : string) : Path :=
  let k := of_str key in
  if String.eqb (root k) "" then mkPath (root p) (parts p ++ parts k) else k.

(** [p == q] *)
Definition eqb (p q : Path) : bool :=
  String.eqb (root p) (root q)
  && if list_eq_dec string_dec (parts p) (parts q) then true else false.

(** [p.parent] *)
Definition parent (p : Path) : Path :=
  mkPath (root p) (removelast (parts p)).

(** [p.name] *)
Definition name (p : Path) : string := last (parts p) "".

(** [p.suffix]: from the last dot of the name, unless that dot is the
    first or the last character. *)
Definition suffix (p : Path) : string :=
  let n := name p in
  match PyStr.rfind_dot n with
  | Some i =>
      if (0 <? i)%nat && (i <? String.length n - 1)%nat
      then String.substring i (String.length n - i) n
      else ""
  | None => ""
  end.

(** [p.with_suffix(sfx)]; [None] is the [ValueError] for a path with an
    empty name. *)
Definition with_suffix (p : Path) (sfx : string) : option Path :=
  let n := name p in
  if String.eqb n "" then None
  else
    let stem := String.substring 0 (String.length n - String.length (suffix p)) n in
    Some (mkPath (root p) (removelast (parts p) ++ [(stem ++ sfx)%string])).

End Pathlib.

Infix "</>" := Pathlib.truediv (at level 40, left associativity).

(* ================================================================== *)
(** * storage.py *)
(* ================================================================== *)

Module Lsblk.

(** The value of the [rm] column: a JSON scalar. Recent versions of
    [lsblk] print a boolean, older ones a number or a string. *)
Inductive Scalar : Type :=
| JNull
| JBool (b : bool)
| JInt (z : Z)
| JStr (s : string).

(** One entry of [lsblk -J -o NAME,KNAME,PATH,TRAN,RM,HOTPLUG,MOUNTPOINT,
    FSTYPE,LABEL,SIZE]: the text columns are a string or [null]. *)
#[warnings="-register-all"] Inductive DeviceNode : Type :=
  mkNode {
    name : option string;
    kname : option string;
    path : option string;
    tran : option string;
    rm : Scalar;
    hotplug : Scalar;
    mountpoint : option string;
    fstype : option string;
    label : option string;
    size : option string;
    children : option (list DeviceNode)
  }.

(** The parsed document: [{"blockdevices": [...]}]. *)
Record Tree : Type := mkTree {
  blockdevices : option (list DeviceNode)
}.

(** Why [_run_lsblk_json] raises. *)
Inductive Failure : Type :=
| ToolMissing                       (* FileNotFoundError from subprocess.run *)
| NonZeroExit (returncode : Z)      (* CalledProcessError, check=True *)
| Unparseable (stdout : string).    (* json.JSONDecodeError *)

Inductive Outcome : Type :=
| Raises (e : Failure)
| Returns (t : Tree).

End Lsblk.

Module Storage.

Import Lsblk.

Record UsbTarget : Type := mkUsbTarget {
  mountpoint : Pathlib.Path;
  device : option string;
  fstype : option string;
  label : option string
}.

(** What [find_usb_mount_targets] reads from its surroundings. *)
Record Env : Type := mkEnv {
  (** [os.environ.get("SLITCAM_STORAGE_DIR")] *)
  SLITCAM_STORAGE_DIR : option string;
  (** [Path.expanduser], which looks the home directory up *)
  expanduser : Pathlib.Path -> Pathlib.Path;
  (** what [_run_lsblk_json()] does *)
  _run_lsblk_json : Outcome;
  (** the result of the probe [_is_writable_dir] *)
  _is_writable_dir : Pathlib.Path -> bool;
  (** [str.upper], by the Unicode tables of the interpreter *)
  str_upper : string -> string
}.

(** [node.get("children") or []] *)
Definition or_nil (A : Type) (o : option (list A)) : list A :=
  match o with
  | Some l => l
  | None => []
  end.

(** [walk]: the node, then its children in order. *)
Fixpoint walk (node : DeviceNode) : list DeviceNode :=
  match node with
  | mkNode _ _ _ _ _ _ _ _ _ _ cs =>
      node :: match cs with
              | Some l => flat_map walk l
              | None => []
              end
  end.

Definition _flatten_lsblk (tree : Tree) : list DeviceNode :=
  flat_map walk (or_nil (blockdevices tree)).

(** [rm is True or rm == 1 or str(rm).lower() == "true"] *)
Definition is_removable (rm : Scalar) : bool :=
  match rm with
  | JNull => false
  | JBool b => b
  | JInt z => (z =? 1)%Z
  | JStr s => String.eqb (PyStr.lower s) "true"
  end.

(** The body of the loop over the nodes: the candidate a node gives,
    [None] where the loop says [continue] or the probe fails. *)
Definition candidate (env : Env) (recordings_dir_name : string)
           (n : DeviceNode) : option UsbTarget :=
  if negb (PyStr.truthy (Lsblk.mountpoint n)) then None
  else
    let tran := PyStr.lower (PyStr.or_empty (Lsblk.tran n)) in
    let is_removable := is_removable (Lsblk.rm n) in
    let is_usbish :=
      String.eqb tran "usb" || (is_removable && negb (String.eqb tran "mmc")) in
    if negb is_usbish then None
    else
      let mp := Pathlib.of_str (PyStr.or_empty (Lsblk.mountpoint n)) in
      if Pathlib.eqb mp (Pathlib.of_str "/") then None
      else if PyStr.startswith (Pathlib.str mp) "/boot" then None
      else
        let target := mp </> recordings_dir_name in
        if _is_writable_dir env target
        then Some (mkUsbTarget target
                     (PyStr.or_else (Lsblk.path n) (Lsblk.kname n))
                     (Lsblk.fstype n)
                     (Lsblk.label n))
        else None.

Fixpoint candidates_of (env : Env) (recordings_dir_name : string)
         (nodes : list DeviceNode) : list UsbTarget :=
  match nodes with
  | [] => []
  | n :: nodes' =>
      match candidate env recordings_dir_name n with
      | Some t => t :: candidates_of env recordings_dir_name nodes'
      | None => candidates_of env recordings_dir_name nodes'
      end
  end.

(** The sort key: [(preferred, label, str(t.mountpoint))]. *)
Definition Score : Type := (nat * string * string)%type.

Definition score (env : Env) (prefer_label_prefixes : list string) (t : UsbTarget)
  : Score :=
  let label := str_upper env (PyStr.or_empty (label t)) in
  let preferred :=
    if existsb (fun p => PyStr.startswith label p) prefer_label_prefixes
    then 1 else 0 in
  (preferred, label, Pathlib.str (mountpoint t)).

(** Python's order on such tuples. *)
Definition score_compare (a b : Score) : comparison :=
  let '(p1, l1, m1) := a in
  let '(p2, l2, m2) := b in
  match Nat.compare p1 p2 with
  | Eq => match String.compare l1 l2 with
          | Eq => String.compare m1 m2
          | c => c
          end
  | c => c
  end.

Definition score_ltb (a b : Score) : bool :=
  match score_compare a b with Lt => true | _ => false end.

(** [list.sort(key=key, reverse=True)]: the stable sort into
    descending order of the keys. An element is put in front of the
    sorted rest and moves back only past elements with a strictly greater
    key, so elements with equal keys keep the order they came in. *)
Section Sort.
Variable A : Type.
Variable key : A -> Score.

Fixpoint insert_desc (x : A) (l : list A) : list A :=
  match l with
  | [] => [x]
  | y :: l' =>
      if score_ltb (key x) (key y) then y :: insert_desc x l' else x :: l
  end.

Fixpoint sort_desc (l : list A) : list A :=
  match l with
  | [] => []
  | x :: l' => insert_desc x (sort_desc l')
  end.
End Sort.

Definition default_recordings_dir_name : string := "slitlamp-recordings".
Definition default_prefer_label_prefixes : list string := ["SLITLAMP"; "SLITLAMP_"].

Definition find_usb_mount_targets (env : Env)
           (recordings_dir_name : string)
           (prefer_label_prefixes : list string) : list UsbTarget :=
  if PyStr.truthy (SLITCAM_STORAGE_DIR env) then
    let p := expanduser env (Pathlib.of_str (PyStr.or_empty (SLITCAM_STORAGE_DIR env))) in
    [mkUsbTarget (p </> recordings_dir_name) None None None]
  else
    match _run_lsblk_json env with
    | Raises _ => []
    | Returns tree =>
        let nodes := _flatten_lsblk tree in
        let candidates := candidates_of env recordings_dir_name nodes in
        sort_desc (score env prefer_label_prefixes) candidates
    end.

Definition choose_usb_target (env : Env) : option UsbTarget :=
  match find_usb_mount_targets env default_recordings_dir_name
          default_prefer_label_prefixes with
  | t :: _ => Some t
  | [] => None
  end.

End Storage.

(* ================================================================== *)
(** * The operating system, as the package sees it *)
(* ================================================================== *)

Module OS.

(** What a call returns or raises; [exc] is [str(exc)]. *)
Inductive Result (A : Type) : Type :=
| Ok (a : A)
| Raise (exc : string).
Arguments Ok {A} a.
Arguments Raise {A} exc.

Inductive Signal : Type := SIGINT | SIGTERM | SIGKILL.

Definition signum (s : Signal) : Z :=
  match s with SIGINT => 2 | SIGKILL => 9 | SIGTERM => 15 end%Z.

(** The name [signal.Signals(signum).name] gives. *)
Definition signame (s : Signal) : string :=
  match s with SIGINT => "SIGINT" | SIGKILL => "SIGKILL" | SIGTERM => "SIGTERM" end.

(** A child process: [returncode] is [None] while it runs; [pending] are
    the signals sent to it and not yet acted on; the two flags say
    whether the program ends within the waiting time once it is
    interrupted or asked to terminate. [SIGKILL] cannot be ignored. *)
Record Process : Type := mkProcess {
  returncode : option Z;
  pending : list Signal;
  exits_on_sigint : bool;
  exits_on_sigterm : bool
}.

(** A [subprocess.Popen] handle is the index of its process. *)
Definition Popen : Type := nat.

(** The calls that leave the program. *)
Inductive Action : Type :=
| AMkdir (p : Pathlib.Path)
| APopen (args : list string) (proc : Popen)
| APopenFailed (args : list string)
| ASendSignal (proc : Popen) (s : Signal)
| AWait (proc : Popen) (timeout : option Q)
| ARun (args : list string) (result : Result Z)
| AUnlink (p : Pathlib.Path).

Record World : Type := mkWorld {
  procs : list Process;
  trace : list Action
}.

Definition log (w : World) (a : Action) : World :=
  mkWorld (procs w) (trace w ++ [a]).

Fixpoint update (A : Type) (l : list A) (i : nat) (f : A -> A) : list A :=
  match l, i with
  | [], _ => []
  | x :: l', 0 => f x :: l'
  | x :: l', S i' => x :: update l' i' f
  end.

(** [proc.poll()]: [None] while the process runs. A handle only comes
    from [Popen], so its index is in the table; outside it the answer is
    that of a process that is gone. *)
Definition poll (w : World) (proc : Popen) : option Z :=
  match nth_error (procs w) proc with
  | Some pr => returncode pr
  | None => Some 0%Z
  end.

Definition reacts (pr : Process) (s : Signal) : bool :=
  match s with
  | SIGINT => exits_on_sigint pr
  | SIGTERM => exits_on_sigterm pr
  | SIGKILL => true
  end.

(** [proc.send_signal(s)]; [proc.terminate()] is [send_signal SIGTERM]
    and [proc.kill()] is [send_signal SIGKILL]. Nothing is sent to a
    process that has exited. Signalling one's own child does not fail. *)
Definition send_signal (w : World) (proc : Popen) (s : Signal) : World :=
  let w' := log w (ASendSignal proc s) in
  match poll w proc with
  | Some _ => w'
  | None =>
      mkWorld
        (update (procs w') proc
           (fun pr => mkProcess (returncode pr) (pending pr ++ [s])
                        (exits_on_sigint pr) (exits_on_sigterm pr)))
        (trace w')
  end.

Inductive WaitResult : Type :=
| Exited (rc : Z)
| TimeoutExpired
| Blocked.            (* no timeout given and the process never exits *)

(** [proc.wait(timeout)]: the process exits during the wait when a signal
    it reacts to is pending. *)
Definition wait (w : World) (proc : Popen) (timeout : option Q) : World * WaitResult :=
  let w' := log w (AWait proc timeout) in
  match nth_error (procs w) proc with
  | None => (w', Exited 0%Z)
  | Some pr =>
      match returncode pr with
      | Some rc => (w', Exited rc)
      | None =>
          match find (reacts pr) (pending pr) with
          | Some s =>
              let rc := (- signum s)%Z in
              (mkWorld
                 (update (procs w') proc
                    (fun pr => mkProcess (Some rc) []
                                 (exits_on_sigint pr) (exits_on_sigterm pr)))
                 (trace w'),
               Exited rc)
          | None =>
              match timeout with
              | Some _ => (w', TimeoutExpired)
              | None => (w', Blocked)
              end
          end
      end
  end.

(** The process ends by itself (the camera fails, the disk is full). *)
Definition exit_on_its_own (w : World) (proc : Popen) (rc : Z) : World :=
  mkWorld
    (update (procs w) proc
       (fun pr => match returncode pr with
                  | Some _ => pr
                  | None => mkProcess (Some rc) (pending pr)
                              (exits_on_sigint pr) (exits_on_sigterm pr)
                  end))
    (trace w).

(** The handles of the processes that run. *)
Fixpoint live_from (i : nat) (l : list Process) : list Popen :=
  match l with
  | [] => []
  | pr :: l' =>
      match returncode pr with
      | None => i :: live_from (S i) l'
      | Some _ => live_from (S i) l'
      end
  end.

Definition live (w : World) : list Popen := live_from 0 (procs w).

(** What the surroundings answer during one call of a handler. *)
Record Env : Type := mkEnv {
  (** [shutil.which(cmd) is not None] *)
  which : string -> bool;
  (** [path.mkdir(parents=True, exist_ok=True)]: the error, if it raises *)
  mkdir : Pathlib.Path -> option string;
  (** the tokens of [SLITCAM_CAMERA_ARGS], or the error of [shlex.split] *)
  extra_camera_args : Result (list string);
  (** [subprocess.Popen(args)]: the error, or how the new process reacts
      to [SIGINT] and to [SIGTERM] *)
  popen : list string -> Result (bool * bool);
  (** [subprocess.run(args)]: the error, or the return code *)
  run : list string -> Result Z;
  (** [path.exists()]: the answer, or the [OSError] it lets through
      (permission denied, input/output error) *)
  exists_ : Pathlib.Path -> Result bool;
  (** [datetime.now().strftime("%Y%m%d_%H%M%S")] *)
  now : string
}.

End OS.

(* ================================================================== *)
(** * camera.py *)
(* ================================================================== *)

Module Camera.

Import OS.

Definition DEFAULT_FPS : Z := 25.

(** [str(n)] for an [int] *)
Definition str_int (z : Z) : string := NilZero.string_of_int (Z.to_int z).

Definition have_libcamera_vid (env : Env) : bool := which env "libcamera-vid".

Definition have_rpicam_vid (env : Env) : bool := which env "rpicam-vid".

Definition get_camera_command (env : Env) : Result string :=
  if have_rpicam_vid env then Ok "rpicam-vid"
  else if have_libcamera_vid env then Ok "libcamera-vid"
  else Raise "No camera tool found. Install rpicam-apps or libcamera-apps via apt on the Pi.".

Definition get_extra_camera_args (env : Env) : Result (list string) :=
  extra_camera_args env.

Definition start_recording (env : Env) (w : World) (output_path : Pathlib.Path)
           (framerate : Z) : World * Result Popen :=
  match mkdir env (Pathlib.parent output_path) with
  | Some exc => (w, Raise exc)
  | None =>
      let w := log w (AMkdir (Pathlib.parent output_path)) in
      match get_camera_command env with
      | Raise exc => (w, Raise exc)
      | Ok cmd =>
          let args :=
            [cmd; "-t"; "0"; "--codec"; "h264"; "--framerate"; str_int framerate;
             "--inline"; "--nopreview"; "-o"; Pathlib.str output_path] in
          match get_extra_camera_args env with
          | Raise exc => (w, Raise exc)
          | Ok extra =>
              let args := args ++ extra in
              match popen env args with
              | Raise exc => (log w (APopenFailed args), Raise exc)
              | Ok (on_int, on_term) =>
                  let proc := List.length (procs w) in
                  (mkWorld (procs w ++ [mkProcess None [] on_int on_term])
                     (trace w ++ [APopen args proc]),
                   Ok proc)
              end
          end
      end
  end.

Definition default_timeout : Q := 5.

(** [stop_recording(proc, timeout)]; [None] when the call never returns. *)
Definition stop_recording (w : World) (proc : option Popen) (timeout : Q)
  : option (World * Result unit) :=
  match proc with
  | None => Some (w, Ok tt)
  | Some proc =>
      match poll w proc with
      | Some _ => Some (w, Ok tt)
      | None =>
          let w := send_signal w proc SIGINT in
          match wait w proc (Some timeout) with
          | (w, Exited _) => Some (w, Ok tt)
          | (w, Blocked) => None
          | (w, TimeoutExpired) =>
              let w := send_signal w proc SIGTERM in
              match wait w proc (Some timeout) with
              | (w, Exited _) => Some (w, Ok tt)
              | (w, Blocked) => None
              | (w, TimeoutExpired) =>
                  let w := send_signal w proc SIGKILL in
                  match wait w proc None with
                  | (w, Exited _) => Some (w, Ok tt)
                  (* a wait without timeout does not time out *)
                  | (w, TimeoutExpired) => Some (w, Raise "TimeoutExpired")
                  | (w, Blocked) => None
                  end
              end
          end
      end
  end.

Definition ffmpeg_args (h264_path mp4_path : Pathlib.Path) : list string :=
  ["ffmpeg"; "-y"; "-fflags"; "+genpts"; "-r"; str_int DEFAULT_FPS;
   "-i"; Pathlib.str h264_path; "-c"; "copy"; Pathlib.str mp4_path].

Definition convert_to_mp4 (env : Env) (w : World) (h264_path : Pathlib.Path)
           (delete_h264 : bool) : World * Result Pathlib.Path :=
  if negb (which env "ffmpeg")
  then (w, Raise "ffmpeg not found. Install via: sudo apt install ffmpeg")
  else
    match Pathlib.with_suffix h264_path ".mp4" with
    | None => (w, Raise "ValueError")
    | Some mp4_path =>
        let args := ffmpeg_args h264_path mp4_path in
        let r := run env args in
        let w := log w (ARun args r) in
        match r with
        | Raise exc => (w, Raise exc)
        | Ok rc =>
            if negb (rc =? 0)%Z then (w, Raise "CalledProcessError")
            else
              let r := run env ["sync"] in
              let w := log w (ARun ["sync"] r) in
              match r with
              | Raise exc => (w, Raise exc)
              | Ok _ =>
                  if delete_h264 then
                    match exists_ env mp4_path with
                    | Raise exc => (w, Raise exc)
                    | Ok true => (log w (AUnlink h264_path), Ok mp4_path)
                    | Ok false => (w, Ok mp4_path)
                    end
                  else (w, Ok mp4_path)
              end
        end
    end.

(** [record_h264(output_path, duration_s, width, height, framerate)] *)
Definition record_h264 (env : Env) (w : World) (output_path : Pathlib.Path)
           (duration_s : Z) (width height framerate : option Z)
  : World * Result unit :=
  match mkdir env (Pathlib.parent output_path) with
  | Some exc => (w, Raise exc)
  | None =>
      let w := log w (AMkdir (Pathlib.parent output_path)) in
      match get_camera_command env with
      | Raise _ =>
          (w, Raise "No camera tool found. Install rpicam-apps or libcamera-apps via apt on the Pi.")
      | Ok cmd_name =>
          let cmd :=
            [cmd_name; "-t"; str_int (duration_s * 1000); "-o"; Pathlib.str output_path] in
          match get_extra_camera_args env with
          | Raise exc => (w, Raise exc)
          | Ok extra =>
              let cmd := cmd ++ extra in
              let cmd :=
                match width with
                | Some v => cmd ++ ["--width"; str_int v]
                | None => cmd
                end in
              let cmd :=
                match height with
                | Some v => cmd ++ ["--height"; str_int v]
                | None => cmd
                end in
              let cmd :=
                match framerate with
                | Some v => cmd ++ ["--framerate"; str_int v]
                | None => cmd
                end in
              let r := run env cmd in
              let w := log w (ARun cmd r) in
              match r with
              | Raise exc => (w, Raise exc)
              | Ok rc =>
                  if negb (rc =? 0)%Z then (w, Raise "CalledProcessError")
                  else (w, Ok tt)
              end
          end
      end
  end.

Definition camera_sanity_check (env : Env) : Result string :=
  match get_camera_command env with
  | Ok cmd => Ok cmd
  | Raise _ =>
      Raise "No camera tool found (rpicam-vid or libcamera-vid). On Raspberry Pi OS, install: sudo apt install rpicam-apps"
  end.

End Camera.

(* ================================================================== *)
(** * gpio_io.py *)
(* ================================================================== *)

Module Gpio.

Definition DEFAULT_BUTTON_PIN : Z := 17.

(** [cb] names the callables handed to the button; [poll] and
    [check_initial_state] return the one they call, for the owner of the
    button to run. [_button] says whether the [gpiozero] input is held. *)
Record LatchingButton (cb : Type) : Type := mkLatchingButton {
  gpio_pin : Z;
  pull_up : bool;
  bounce_time : Q;
  on_pressed : option cb;
  on_released : option cb;
  _fake_mode : bool;
  _button : bool;
  _last_state : option bool
}.

Section Button.
Variable cb : Type.

Definition set_last_state (b : LatchingButton cb) (v : option bool) : LatchingButton cb :=
  mkLatchingButton (gpio_pin b) (pull_up b) (bounce_time b) (on_pressed b)
    (on_released b) (_fake_mode b) (_button b) v.

(** [__init__]: [fake] is [SLITCAM_FAKE_GPIO == "1"], [gpiozero_ok] says
    whether the input line can be opened. *)
Definition init (fake gpiozero_ok : bool) (gpio_pin : Z) (pull_up : bool)
           (bounce_time : Q) (on_pressed on_released : option cb)
  : OS.Result (LatchingButton cb) :=
  if fake
  then OS.Ok (mkLatchingButton gpio_pin pull_up bounce_time on_pressed on_released
                true false None)
  else if gpiozero_ok
  then OS.Ok (mkLatchingButton gpio_pin pull_up bounce_time on_pressed on_released
                false true None)
  else OS.Raise "gpiozero not available. Install on the Pi with: sudo apt install python3-gpiozero".

(** The property [is_pressed]; [line] is the level of the input. *)
Definition is_pressed (b : LatchingButton cb) (line : bool) : bool :=
  if _fake_mode b then false
  else if _button b then line else false.

Definition poll (b : LatchingButton cb) (line : bool) : LatchingButton cb * option cb :=
  let current_state := is_pressed b line in
  match _last_state b with
  | None => (set_last_state b (Some current_state), None)
  | Some last =>
      if negb (Bool.eqb current_state last) then
        let b := set_last_state b (Some current_state) in
        if current_state then (b, on_pressed b)
        else (b, on_released b)
      else (b, None)
  end.

Definition check_initial_state (b : LatchingButton cb) (line : bool)
  : LatchingButton cb * option cb * bool :=
  let current_state := is_pressed b line in
  let b := set_last_state b (Some current_state) in
  if current_state then
    match on_pressed b with
    | Some f => (b, Some f, true)
    | None => (b, None, false)
    end
  else (b, None, false).

Definition close (b : LatchingButton cb) : LatchingButton cb :=
  mkLatchingButton (gpio_pin b) (pull_up b) (bounce_time b) (on_pressed b)
    (on_released b) (_fake_mode b) false (_last_state b).

End Button.

End Gpio.

(* ================================================================== *)
(** * recorder.py *)
(* ================================================================== *)

Module Recorder.

Import OS.

(** The bound methods the service hands to its button. *)
Inductive Method : Type :=
| on_button_pressed
| on_button_released.

Record RecordingService : Type := mkService {
  output_dir : Pathlib.Path;
  (** the messages given to [_status], oldest first *)
  status_log : list string;
  _running : bool;
  _proc : option Popen;
  _current_h264 : option Pathlib.Path;
  _button : Gpio.LatchingButton Method
}.

(** The service and everything outside it. *)
Definition Sys : Type := (RecordingService * World)%type.

(** How a method ends: it returns, an exception leaves it, or it never
    comes back. *)
Inductive Res (A : Type) : Type :=
| Normal (a : A) (s : Sys)
| Raised (exc : string) (s : Sys)
| Hang.
Arguments Normal {A} a s.
Arguments Raised {A} exc s.
Arguments Hang {A}.

Definition _status (svc : RecordingService) (msg : string) : RecordingService :=
  mkService (output_dir svc) (status_log svc ++ [msg]) (_running svc) (_proc svc)
    (_current_h264 svc) (_button svc).

Definition set_running (svc : RecordingService) (v : bool) : RecordingService :=
  mkService (output_dir svc) (status_log svc) v (_proc svc)
    (_current_h264 svc) (_button svc).

Definition set_proc (svc : RecordingService) (v : option Popen) : RecordingService :=
  mkService (output_dir svc) (status_log svc) (_running svc) v
    (_current_h264 svc) (_button svc).

Definition set_current_h264 (svc : RecordingService) (v : option Pathlib.Path)
  : RecordingService :=
  mkService (output_dir svc) (status_log svc) (_running svc) (_proc svc)
    v (_button svc).

Definition set_button (svc : RecordingService) (v : Gpio.LatchingButton Method)
  : RecordingService :=
  mkService (output_dir svc) (status_log svc) (_running svc) (_proc svc)
    (_current_h264 svc) v.

(** [__init__] *)
Definition init (env : Env) (fake gpiozero_ok : bool) (w : World)
           (output_dir : Pathlib.Path) (gpio_pin : Z) : World * Result RecordingService :=
  match mkdir env output_dir with
  | Some exc => (w, Raise exc)
  | None =>
      let w := log w (AMkdir output_dir) in
      match Gpio.init fake gpiozero_ok gpio_pin true (5 # 100)
              (Some on_button_pressed) (Some on_button_released) with
      | Raise exc => (w, Raise exc)
      | Ok b => (w, Ok (mkService output_dir [] false None None b))
      end
  end.

(** [self._proc is not None and self._proc.poll() is None] *)
Definition recording (svc : RecordingService) (w : World) : bool :=
  match _proc svc with
  | Some proc => match poll w proc with None => true | Some _ => false end
  | None => false
  end.

Definition _on_button_pressed (env : Env) (s : Sys) : Sys :=
  let '(svc, w) := s in
  if recording svc w then (_status svc "Already recording, ignoring press", w)
  else
    let timestamp := now env in
    let h264 := output_dir svc </> ("rec_" ++ timestamp ++ ".h264") in
    let svc := set_current_h264 svc (Some h264) in
    let svc := _status svc ("START -> " ++ Pathlib.str h264) in
    match Camera.start_recording env w h264 Camera.DEFAULT_FPS with
    | (w, Ok proc) => (set_proc svc (Some proc), w)
    | (w, Raise exc) =>
        let svc := _status svc ("ERROR starting recording: " ++ exc) in
        let svc := set_proc svc None in
        (set_current_h264 svc None, w)
    end.

Definition _on_button_released (env : Env) (s : Sys) : Res unit :=
  let '(svc, w) := s in
  if negb (recording svc w)
  then Normal tt (_status svc "Not recording, ignoring release", w)
  else
    let svc := _status svc "STOP..." in
    match Camera.stop_recording w (_proc svc) Camera.default_timeout with
    | None => Hang
    | Some (w, r) =>
        let svc :=
          match r with
          | Ok _ => svc
          | Raise exc => _status svc ("ERROR stopping recording: " ++ exc)
          end in
        let svc := set_proc svc None in
        match _current_h264 svc with
        | None => Normal tt (set_current_h264 svc None, w)
        | Some h264 =>
            match exists_ env h264 with
            | Raise exc => Raised exc (svc, w)
            | Ok false => Normal tt (set_current_h264 svc None, w)
            | Ok true =>
                match Pathlib.with_suffix h264 ".mp4" with
                | None => Raised "ValueError" (svc, w)
                | Some mp4_path =>
                    let svc := _status svc ("MP4 -> " ++ Pathlib.str mp4_path) in
                    match Camera.convert_to_mp4 env w h264 false with
                    | (w, Ok _) => Normal tt (set_current_h264 svc None, w)
                    | (w, Raise exc) =>
                        let svc := _status svc ("ERROR converting to MP4: " ++ exc) in
                        Normal tt (set_current_h264 svc None, w)
                    end
                end
            end
        end
    end.

(** The signals the service installs [_handle_shutdown] for. *)
Inductive Shutdown : Type := Sigterm | Sigint.

Definition signal_of (sg : Shutdown) : Signal :=
  match sg with Sigterm => SIGTERM | Sigint => SIGINT end.

Definition newline : string := String (ascii_of_nat 10) "".

Definition _handle_shutdown (sg : Shutdown) (svc : RecordingService) : RecordingService :=
  let sig_name := signame (signal_of sg) in
  let svc := _status svc (newline ++ "Received " ++ sig_name ++ ", shutting down...") in
  set_running svc false.

(** Running the callable a button method hands back. *)
Definition call (env : Env) (m : option Method) (s : Sys) : Res unit :=
  match m with
  | None => Normal tt s
  | Some on_button_pressed => Normal tt (_on_button_pressed env s)
  | Some on_button_released => _on_button_released env s
  end.

(** [self._button.poll()] *)
Definition button_poll (env : Env) (line : bool) (s : Sys) : Res unit :=
  let '(svc, w) := s in
  let '(b, m) := Gpio.poll (_button svc) line in
  call env m (set_button svc b, w).

(** One turn of the loop takes: the level of the input, the surroundings
    during the poll, and what happens during the sleep: processes that
    end by themselves and signals that are delivered. *)
Record Tick : Type := mkTick {
  line : bool;
  env : Env;
  deaths : list (Popen * Z);
  signals : list Shutdown
}.

Definition sleep (t : Tick) (s : Sys) : Sys :=
  let '(svc, w) := s in
  let w := fold_left (fun w d => exit_on_its_own w (fst d) (snd d)) (deaths t) w in
  let svc := fold_left (fun svc sg => _handle_shutdown sg svc) (signals t) svc in
  (svc, w).

(** [while self._running: self._button.poll(); time.sleep(POLL_INTERVAL)];
    [None] when the loop is still going after the last tick given. *)
Fixpoint loop (ticks : list Tick) (s : Sys) : option (Res unit) :=
  if negb (_running (fst s)) then Some (Normal tt s)
  else
    match ticks with
    | [] => None
    | t :: ticks' =>
        match button_poll (env t) (line t) s with
        | Normal _ s => loop ticks' (sleep t s)
        | Raised exc s => Some (Raised exc s)
        | Hang => Some Hang
        end
    end.

(** The [finally] block of [run]. *)
Definition teardown (env : Env) (s : Sys) : Res unit :=
  let '(svc, w) := s in
  let r :=
    if recording svc w
    then _on_button_released env (_status svc "Stopping active recording...", w)
    else Normal tt (svc, w) in
  match r with
  | Normal _ (svc, w) =>
      let svc := set_button svc (Gpio.close (_button svc)) in
      Normal tt (_status svc "Service stopped.", w)
  | Raised exc s => Raised exc s
  | Hang => Hang
  end.

(** [try: body finally: teardown] *)
Definition try_finally (body : Res unit) (env : Env) : Res unit :=
  match body with
  | Normal _ s => teardown env s
  | Raised exc s =>
      match teardown env s with
      | Normal _ s => Raised exc s
      | Raised exc' s => Raised exc' s
      | Hang => Hang
      end
  | Hang => Hang
  end.

(** The statements of [run] before the loop: [line0] is the level of
    the input and [env0] the surroundings at that time. *)
Definition startup (line0 : bool) (env0 : Env) (s : Sys) : Res unit :=
  let '(svc, w) := s in
  let svc := _status svc "Ready. Latching switch: ON=start, OFF=stop+mp4" in
  let svc := _status svc ("Output directory: " ++ Pathlib.str (output_dir svc)) in
  let '(b, m, r) := Gpio.check_initial_state (_button svc) line0 in
  match call env0 m (set_button svc b, w) with
  | Hang => Hang
  | Raised exc s => Raised exc s
  | Normal _ (svc, w) =>
      let svc :=
        if r then _status svc "Button was ON at startup, recording started" else svc in
      Normal tt (set_running svc true, w)
  end.

(** [RecordingService.run]: the startup, the loop, and the [finally]
    block with [fin] as its surroundings. [None] when the loop is still
    going after the last tick given. *)
Definition run (line0 : bool) (env0 : Env) (ticks : list Tick) (fin : Env)
           (s : Sys) : option (Res Z) :=
  match startup line0 env0 s with
  | Hang => Some Hang
  | Raised exc s => Some (Raised exc s)
  | Normal _ s =>
      match loop ticks s with
      | None => None
      | Some body =>
          match try_finally body fin with
          | Normal _ s => Some (Normal 0%Z s)
          | Raised exc s => Some (Raised exc s)
          | Hang => Some Hang
          end
      end
  end.

(** The module function [run(output_dir, gpio_pin)]: on the left the
    constructor of the service raises, on the right the service runs. *)
Definition run_service (init_env : Env) (fake gpiozero_ok : bool)
           (output_dir : Pathlib.Path) (gpio_pin : Z)
           (line0 : bool) (env0 : Env) (ticks : list Tick) (fin : Env)
           (w : World) : (string * World) + option (Res Z) :=
  match init init_env fake gpiozero_ok w output_dir gpio_pin with
  | (w, Raise exc) => inl (exc, w)
  | (w, Ok svc) => inr (run line0 env0 ticks fin (svc, w))
  end.

End Recorder.

(* ================================================================== *)
(** * cli.py *)
(* ================================================================== *)

Module Cli.

Import OS.

Definition RECORDINGS_SUBDIR : string := "slitlamp_recordings".

(** The file [record-test] writes: [Path(target.mountpoint) / f"test_{stamp}.h264"],
    [None] when no target is found. *)
Definition record_test_out (senv : Storage.Env) (stamp : string) : option Pathlib.Path :=
  match Storage.choose_usb_target senv with
  | None => None
  | Some target => Some (Storage.mountpoint target </> ("test_" ++ stamp ++ ".h264"))
  end.

(** How [record-service] ends: with an exit code before the service is
    made, or as the service does. *)
Inductive ServiceEnd : Type :=
| Exit (code : Z)
| Ran (output_dir : Pathlib.Path) (r : (string * World) + option (Recorder.Res Z)).

Definition _cmd_record_service (senv : Storage.Env) (env : Env)
           (fake gpiozero_ok : bool) (pin : Z)
           (line0 : bool) (env0 : Env) (ticks : list Recorder.Tick) (fin : Env)
           (w : World) : ServiceEnd :=
  match Storage.choose_usb_target senv with
  | None => Exit 2
  | Some target =>
      match Camera.camera_sanity_check env with
      | Raise _ => Exit 1
      | Ok _ =>
          let output_dir := Storage.mountpoint target </> RECORDINGS_SUBDIR in
          Ran output_dir
            (Recorder.run_service env fake gpiozero_ok output_dir pin
               line0 env0 ticks fin w)
      end
  end.

(** What a command prints, and where. *)
Inductive Printed : Type :=
| Stdout (line : string)
| Stderr (line : string).

(** The text in brackets [usb-status] puts after a target. *)
Definition usb_status_suffix (t : Storage.UsbTarget) : string :=
  let meta :=
    (if PyStr.truthy (Storage.label t)
     then [("label=" ++ PyStr.or_empty (Storage.label t))%string] else [])
    ++ (if PyStr.truthy (Storage.fstype t)
        then [("fstype=" ++ PyStr.or_empty (Storage.fstype t))%string] else [])
    ++ (if PyStr.truthy (Storage.device t)
        then [("dev=" ++ PyStr.or_empty (Storage.device t))%string] else []) in
  match meta with
  | [] => ""
  | _ => " (" ++ PyStr.join ", " meta ++ ")"
  end.

Definition _cmd_usb_status (senv : Storage.Env) : list Printed * Z :=
  match Storage.find_usb_mount_targets senv Storage.default_recordings_dir_name
          Storage.default_prefer_label_prefixes with
  | [] => ([Stdout "No writable USB mount targets found."], 1%Z)
  | targets =>
      (Stdout "Writable USB targets:"
       :: map (fun t =>
                 Stdout ("- " ++ Pathlib.str (Storage.mountpoint t)
                         ++ usb_status_suffix t))
            targets,
       0%Z)
  end.

Definition _cmd_camera_check (env : Env) : list Printed * Z :=
  match Camera.camera_sanity_check env with
  | Raise exc => ([Stderr exc], 1%Z)
  | Ok cmd => ([Stdout (cmd ++ " is available.")], 0%Z)
  end.

(** [record-test --seconds]; [env] also gives the time stamp. *)
Definition _cmd_record_test (senv : Storage.Env) (env : Env) (seconds : Z)
           (w : World) : World * list Printed * Z :=
  match Storage.choose_usb_target senv with
  | None =>
      (w,
       [Stderr "No writable USB drive mounted. Recording is disabled until a USB drive is mounted."],
       2%Z)
  | Some target =>
      match Camera.camera_sanity_check env with
      | Raise exc => (w, [Stderr exc], 1%Z)
      | Ok _ =>
          let stamp := now env in
          let out := Storage.mountpoint target </> ("test_" ++ stamp ++ ".h264") in
          let printed :=
            [Stdout ("Recording " ++ Camera.str_int seconds ++ "s to: " ++ Pathlib.str out)] in
          match Camera.record_h264 env w out seconds None None None with
          | (w, Raise exc) => (w, printed ++ [Stderr exc], 1%Z)
          | (w, Ok _) => (w, printed ++ [Stdout "Done."], 0%Z)
          end
      end
  end.

End Cli.

(* ================================================================== *)
(** * Concrete surroundings, used to run the definitions *)
(* ================================================================== *)

Module Examples.

Import OS.

(** A partition on a USB stick. *)
Definition usb_partition (mp lab : string) : Lsblk.DeviceNode :=
  Lsblk.mkNode (Some "sda1") (Some "sda1") (Some "/dev/sda1") (Some "usb")
    (Lsblk.JBool true) (Lsblk.JBool true) (Some mp) (Some "vfat") (Some lab)
    (Some "14.9G") None.

(** A disk that holds the given partitions. *)
Definition usb_disk (ps : list Lsblk.DeviceNode) : Lsblk.DeviceNode :=
  Lsblk.mkNode (Some "sda") (Some "sda") (Some "/dev/sda") (Some "usb")
    (Lsblk.JBool true) (Lsblk.JBool true) None None None (Some "14.9G") (Some ps).

(** [lsblk] reports the given devices, every directory is writable and
    [u] is [str.upper]. *)
Definition storage_env_with (u : string -> string) (devs : list Lsblk.DeviceNode)
  : Storage.Env :=
  Storage.mkEnv None (fun p => p) (Lsblk.Returns (Lsblk.mkTree (Some devs)))
    (fun _ => true) u.

(** The same where all labels are ASCII text. *)
Definition storage_env (devs : list Lsblk.DeviceNode) : Storage.Env :=
  storage_env_with PyStr.upper_ascii devs.

(** The three sticks of the ordering example, with [u] for [str.upper]. *)
Definition three_sticks_with (u : string -> string) : Storage.Env :=
  storage_env_with u
    [usb_disk [usb_partition "/media/a" "OTHER"];
     usb_disk [usb_partition "/media/b" "SLITLAMP_B"];
     usb_disk [usb_partition "/media/c" "SLITLAMP_A"]].

(** The three sticks of the ordering example. *)
Definition three_sticks : Storage.Env :=
  storage_env [usb_disk [usb_partition "/media/a" "OTHER"];
               usb_disk [usb_partition "/media/b" "SLITLAMP_B"];
               usb_disk [usb_partition "/media/c" "SLITLAMP_A"]].

(** Two sticks whose labels differ in case. *)
Definition mixed_case_sticks : Storage.Env :=
  storage_env [usb_disk [usb_partition "/media/a" "a"];
               usb_disk [usb_partition "/media/b" "B"]].

(** One stick mounted at [/media/usb]. *)
Definition one_stick : Storage.Env :=
  storage_env [usb_disk [usb_partition "/media/usb" "SLITLAMP"]].

(** [lsblk] fails in the given way; no override is set. *)
Definition failing_lsblk (e : Lsblk.Failure) : Storage.Env :=
  Storage.mkEnv None (fun p => p) (Lsblk.Raises e) (fun _ => true) PyStr.upper_ascii.

(** The override of the storage directory is set. *)
Definition override_env (dir : string) : Storage.Env :=
  Storage.mkEnv (Some dir) (fun p => p) (Lsblk.Raises Lsblk.ToolMissing) (fun _ => true)
    PyStr.upper_ascii.

(** Every tool is installed and works; a process started here ends when
    it is interrupted. *)
Definition good_env (timestamp : string) : Env :=
  mkEnv (fun _ => true) (fun _ => None) (Ok []) (fun _ => Ok (true, true))
    (fun _ => Ok 0%Z) (fun _ => Ok true) timestamp.



Definition empty_world : World := mkWorld [] [].

Definition button0 : Gpio.LatchingButton Recorder.Method :=
  Gpio.mkLatchingButton 17 true (5 # 100) (Some Recorder.on_button_pressed)
    (Some Recorder.on_button_released) false true None.

Definition service0 (dir : Pathlib.Path) : Recorder.RecordingService :=
  Recorder.mkService dir [] false None None button0.

Definition quiet_tick (line : bool) (e : Env) : Recorder.Tick :=
  Recorder.mkTick line e [] [].

Definition last_tick (line : bool) (e : Env) : Recorder.Tick :=
  Recorder.mkTick line e [] [Recorder.Sigterm].

End Examples.

(* ================================================================== *)
(** * Facts about the order of the scores and the sort *)
(* ================================================================== *)

Unset Implicit Arguments.

Section ScoreOrder.

Import Storage.

Lemma ascii_compare_lt_trans (a b c : ascii) :
  Ascii.compare a b = Lt -> Ascii.compare b c = Lt -> Ascii.compare a c = Lt.
Proof.
  unfold Ascii.compare. rewrite !N.compare_lt_iff. apply N.lt_trans.
Qed.

Lemma string_compare_refl (s : string) : String.compare s s = Eq.
Proof.
  induction s as [|c s IH]; simpl; [reflexivity|].
  unfold Ascii.compare. now rewrite N.compare_refl.
Qed.

Lemma string_compare_lt_trans (a : string) :
  forall b c, String.compare a b = Lt -> String.compare b c = Lt ->
              String.compare a c = Lt.
Proof.
  induction a as [|x a IH]; intros [|y b] [|z c]; simpl; try discriminate; auto.
  destruct (Ascii.compare x y) eqn:Exy; try discriminate;
    destruct (Ascii.compare y z) eqn:Eyz; try discriminate; intros H1 H2.
  - apply Ascii.compare_eq_iff in Exy, Eyz. subst.
    assert (E : Ascii.compare z z = Eq)
      by (unfold Ascii.compare; apply N.compare_refl).
    rewrite E. eauto.
  - apply Ascii.compare_eq_iff in Exy. subst. now rewrite Eyz.
  - apply Ascii.compare_eq_iff in Eyz. subst. now rewrite Exy.
  - now rewrite (ascii_compare_lt_trans _ _ _ Exy Eyz).
Qed.

(** [a < b] on scores, spelled out. *)
Definition score_lt (a b : Score) : Prop :=
  let '(p1, l1, m1) := a in
  let '(p2, l2, m2) := b in
  p1 < p2 \/
  (p1 = p2 /\ (String.compare l1 l2 = Lt \/
               (l1 = l2 /\ String.compare m1 m2 = Lt))).

Lemma score_compare_lt (a b : Score) : score_compare a b = Lt <-> score_lt a b.
Proof.
  destruct a as [[p1 l1] m1], b as [[p2 l2] m2]; simpl.
  destruct (Nat.compare_spec p1 p2) as [E|L|G].
  - subst. destruct (String.compare l1 l2) eqn:El.
    + apply String.compare_eq_iff in El. subst. split.
      * intros H. right. split; [reflexivity|]. right. now split.
      * intros [H|[_ [H|[_ H]]]]; [lia|discriminate|assumption].
    + split; [intros _; right; split; [reflexivity|now left]|reflexivity].
    + split; [discriminate|].
      intros [H|[_ [H|[H _]]]]; [lia|discriminate|].
      subst. now rewrite string_compare_refl in El.
  - split; [intros _; now left|reflexivity].
  - split; [discriminate|]. intros [H|[H _]]; lia.
Qed.

Lemma score_compare_antisym (a b : Score) :
  score_compare a b = CompOpp (score_compare b a).
Proof.
  destruct a as [[p1 l1] m1], b as [[p2 l2] m2]; simpl.
  rewrite (Nat.compare_antisym p2 p1), (String.compare_antisym l1 l2),
    (String.compare_antisym m1 m2).
  destruct (Nat.compare p2 p1), (String.compare l2 l1), (String.compare m2 m1);
    reflexivity.
Qed.

Lemma score_compare_eq (a b : Score) : score_compare a b = Eq -> a = b.
Proof.
  destruct a as [[p1 l1] m1], b as [[p2 l2] m2]; simpl.
  destruct (Nat.compare_spec p1 p2); try discriminate.
  destruct (String.compare l1 l2) eqn:El; try discriminate.
  intros Em. apply String.compare_eq_iff in El, Em. now subst.
Qed.

Lemma score_compare_refl (a : Score) : score_compare a a = Eq.
Proof.
  destruct a as [[p l] m]; simpl.
  now rewrite Nat.compare_refl, !string_compare_refl.
Qed.

Lemma score_lt_trans (a b c : Score) : score_lt a b -> score_lt b c -> score_lt a c.
Proof.
  destruct a as [[p1 l1] m1], b as [[p2 l2] m2], c as [[p3 l3] m3]; simpl.
  intros [H1|[E1 H1]] [H2|[E2 H2]]; subst; try (left; lia).
  right. split; [reflexivity|].
  destruct H1 as [H1|[E1 H1]], H2 as [H2|[E2 H2]]; subst; auto.
  - left. eapply string_compare_lt_trans; eauto.
  - right. split; [reflexivity|]. eapply string_compare_lt_trans; eauto.
Qed.

(** [a >= b]: the order a descending sort puts [a] before [b] in. *)
Definition score_ge (a b : Score) : Prop := score_compare a b <> Lt.

Lemma score_ltb_false (a b : Score) : score_ltb a b = false <-> score_ge a b.
Proof.
  unfold score_ltb, score_ge. destruct (score_compare a b); split; congruence.
Qed.

Lemma score_ltb_true_ge (a b : Score) : score_ltb a b = true -> score_ge b a.
Proof.
  unfold score_ltb, score_ge. rewrite (score_compare_antisym b a).
  destruct (score_compare a b); simpl; congruence.
Qed.

Lemma score_ge_trans (a b c : Score) : score_ge a b -> score_ge b c -> score_ge a c.
Proof.
  unfold score_ge. intros H1 H2 H3.
  destruct (score_compare a b) eqn:Eab; [| congruence |].
  - apply score_compare_eq in Eab. subst. congruence.
  - destruct (score_compare b c) eqn:Ebc; [| congruence |].
    + apply score_compare_eq in Ebc. subst. congruence.
    + assert (Hba : score_compare b a = Lt)
        by (rewrite score_compare_antisym, Eab; reflexivity).
      assert (Hcb : score_compare c b = Lt)
        by (rewrite score_compare_antisym, Ebc; reflexivity).
      rewrite score_compare_lt in *.
      pose proof (score_lt_trans _ _ _ Hcb Hba) as Hca.
      pose proof (score_lt_trans _ _ _ Hca H3) as Hcc.
      apply score_compare_lt in Hcc. rewrite score_compare_refl in Hcc.
      discriminate.
Qed.

Context {A : Type}.
Variable key : A -> Score.

(** [l] is in descending order of the keys. *)
Definition sorted_desc (l : list A) : Prop :=
  StronglySorted (fun a b => score_ge (key a) (key b)) l.

Lemma insert_desc_perm (x : A) (l : list A) :
  Permutation (x :: l) (insert_desc key x l).
Proof.
  induction l as [|y l IH]; simpl; [reflexivity|].
  destruct (score_ltb (key x) (key y)); [|reflexivity].
  rewrite perm_swap. now constructor.
Qed.

Lemma sort_desc_perm (l : list A) : Permutation l (sort_desc key l).
Proof.
  induction l as [|x l IH]; simpl; [constructor|].
  rewrite <- insert_desc_perm. now constructor.
Qed.

Lemma insert_desc_sorted (x : A) (l : list A) :
  sorted_desc l -> sorted_desc (insert_desc key x l).
Proof.
  unfold sorted_desc.
  induction l as [|y l IH]; simpl; intros Hs.
  - repeat constructor.
  - inversion Hs as [|? ? Hl Hy]; subst.
    destruct (score_ltb (key x) (key y)) eqn:E.
    + constructor; [auto|].
      rewrite <- (insert_desc_perm x l).
      constructor; [now apply score_ltb_true_ge | assumption].
    + apply score_ltb_false in E. constructor; [assumption|].
      constructor; [assumption|].
      rewrite Forall_forall in *. intros z Hz.
      eapply score_ge_trans; eauto.
Qed.

Lemma sort_desc_sorted (l : list A) : sorted_desc (sort_desc key l).
Proof.
  induction l as [|x l IH]; simpl; [constructor|].
  now apply insert_desc_sorted.
Qed.

(** The elements with one key, in the order they stand in [l]. *)
Definition with_key (k : Score) (l : list A) : list A :=
  filter (fun x => match score_compare (key x) k with Eq => true | _ => false end) l.

Lemma insert_desc_stable (k : Score) (x : A) (l : list A) :
  with_key k (insert_desc key x l) = with_key k (x :: l).
Proof.
  induction l as [|y l IH]; [reflexivity|].
  simpl insert_desc. destruct (score_ltb (key x) (key y)) eqn:E; [|reflexivity].
  unfold with_key in *. simpl in *. rewrite IH.
  destruct (score_compare (key x) k) eqn:Ex; try reflexivity.
  apply score_compare_eq in Ex. subst k.
  unfold score_ltb in E. rewrite (score_compare_antisym (key y) (key x)).
  destruct (score_compare (key x) (key y)); try discriminate. reflexivity.
Qed.

Lemma sort_desc_stable (k : Score) (l : list A) :
  with_key k (sort_desc key l) = with_key k l.
Proof.
  induction l as [|x l IH]; [reflexivity|].
  simpl sort_desc. rewrite insert_desc_stable.
  unfold with_key in *. simpl. now rewrite IH.
Qed.

End ScoreOrder.

(* ================================================================== *)
(** * The storage resolver *)
(* ================================================================== *)

Section StorageFacts.

Import Lsblk Storage.

Lemma string_of_list_ascii_app (a b : list ascii) :
  string_of_list_ascii (a ++ b)
  = (string_of_list_ascii a ++ string_of_list_ascii b)%string.
Proof.
  induction a as [|c a IH]; simpl; [reflexivity|]. now rewrite IH.
Qed.

Lemma string_app_nil (s : string) : (s ++ "")%string = s.
Proof.
  induction s as [|c s IH]; simpl; [reflexivity|]. now rewrite IH.
Qed.

Lemma string_app_assoc (a b c : string) :
  ((a ++ b) ++ c)%string = (a ++ (b ++ c))%string.
Proof.
  induction a as [|x a IH]; simpl; [reflexivity|]. now rewrite IH.
Qed.

(** The first piece of a split starts with what was collected so far. *)
Lemma split_slash_aux_first (s : string) :
  forall cur, exists y tl,
    PyStr.split_slash_aux s cur
    = (string_of_list_ascii (rev cur) ++ y)%string :: tl.
Proof.
  induction s as [|c s IH]; intros cur; simpl.
  - exists "", []. now rewrite string_app_nil.
  - destruct (Ascii.eqb c "/") eqn:E.
    + exists "", (PyStr.split_slash_aux s []). now rewrite string_app_nil.
    + destruct (IH (c :: cur)) as (y & tl & H). rewrite H.
      exists (String c y), tl. simpl.
      now rewrite string_of_list_ascii_app, string_app_assoc.
Qed.

(** A mount point that begins with [/boot] still does so once it has
    gone through [Path] and back. *)
Lemma boot_prefix_kept (m : string) :
  String.prefix "/boot" m = true ->
  PyStr.startswith (Pathlib.str (Pathlib.of_str m)) "/boot" = true.
Proof.
  intros H.
  destruct m as [|c0 [|c1 [|c2 [|c3 [|c4 r]]]]]; simpl in H;
    repeat match type of H with
           | (if ?d then _ else _) = true => destruct d; [subst|discriminate]
           end;
    try discriminate.
  unfold Pathlib.of_str, PyStr.split_slash. simpl.
  destruct (split_slash_aux_first r ["t"; "o"; "o"; "b"]%char) as (y & tl & E).
  rewrite E. simpl.
  unfold Pathlib.str. simpl.
  destruct (filter Pathlib.keep_part tl); destruct y; reflexivity.
Qed.

Lemma truthy_some (o : option string) :
  PyStr.truthy o = true -> exists s, o = Some s /\ PyStr.or_empty o = s /\ s <> "".
Proof.
  destruct o as [s|]; simpl; [|discriminate].
  intros H. exists s. unfold PyStr.or_empty, PyStr.or_else. simpl. rewrite H.
  repeat split. intros ->. discriminate.
Qed.

(** A node that gives a candidate has a mount point, which is neither
    the root nor at or below [/boot]. *)
Lemma candidate_mountpoint env dir n t :
  candidate env dir n = Some t ->
  exists m, Lsblk.mountpoint n = Some m /\ m <> "/" /\ String.prefix "/boot" m = false.
Proof.
  unfold candidate.
  destruct (PyStr.truthy (Lsblk.mountpoint n)) eqn:Ht; simpl; [|discriminate].
  destruct (truthy_some _ Ht) as (m & Em & Eo & _). rewrite Eo.
  destruct (negb _); [discriminate|].
  destruct (Pathlib.eqb (Pathlib.of_str m) (Pathlib.of_str "/")) eqn:Eroot;
    [discriminate|].
  destruct (PyStr.startswith (Pathlib.str (Pathlib.of_str m)) "/boot") eqn:Eboot;
    [discriminate|].
  intros _. exists m. repeat split; [assumption| |].
  - intros ->. discriminate.
  - destruct (String.prefix "/boot" m) eqn:P; [|reflexivity].
    apply boot_prefix_kept in P. congruence.
Qed.

Lemma candidates_of_In env dir nodes t :
  In t (candidates_of env dir nodes) <->
  exists n, In n nodes /\ candidate env dir n = Some t.
Proof.
  induction nodes as [|n nodes IH]; simpl.
  - split; [tauto|]. intros (n & [] & _).
  - destruct (candidate env dir n) as [t'|] eqn:E; simpl; rewrite IH; split.
    + intros [->|(n' & Hin & Hc)]; [exists n; auto|exists n'; auto].
    + intros (n' & [->|Hin] & Hc); [left; congruence|right; exists n'; auto].
    + intros (n' & Hin & Hc). exists n'; auto.
    + intros (n' & [->|Hin] & Hc); [congruence|exists n'; auto].
Qed.

(** What the resolver returns when it has asked [lsblk]. *)
Lemma find_usb_mount_targets_lsblk env dir prefixes tree :
  PyStr.truthy (SLITCAM_STORAGE_DIR env) = false ->
  _run_lsblk_json env = Returns tree ->
  find_usb_mount_targets env dir prefixes
  = sort_desc (score env prefixes) (candidates_of env dir (_flatten_lsblk tree)).
Proof.
  intros H1 H2. unfold find_usb_mount_targets. now rewrite H1, H2.
Qed.

End StorageFacts.

(** The score as the specification words it: the flag, the text of the
    label as it is, the text of the mount point; [upper] is [str.upper]. *)
Definition spec_score (upper : string -> string) (prefer_label_prefixes : list string)
           (t : Storage.UsbTarget) : Storage.Score :=
  let label := PyStr.or_empty (Storage.label t) in
  let preferred :=
    if existsb (fun p => PyStr.startswith (upper label) p) prefer_label_prefixes
    then 1 else 0 in
  (preferred, label, Pathlib.str (Storage.mountpoint t)).

(** C4, as stated, fails: with the labels [a] and [B] the resolver puts
    [B] first (it compares [A] with [B]), while the text [a] is the
    larger one; the result is not in descending order of (flag, label
    text, mount point text). *)
Lemma C4_label_text_counterexample :
  map Storage.label
    (Storage.find_usb_mount_targets Examples.mixed_case_sticks
       Storage.default_recordings_dir_name ["SLITLAMP"])
  = [Some "B"; Some "a"]
  /\ ~ sorted_desc (spec_score (Storage.str_upper Examples.mixed_case_sticks) ["SLITLAMP"])
         (Storage.find_usb_mount_targets Examples.mixed_case_sticks
            Storage.default_recordings_dir_name ["SLITLAMP"]).
Proof.
  split; [vm_compute; reflexivity|].
  intros H. vm_compute in H.
  inversion H as [|? ? _ Hall]; subst.
  inversion Hall as [|? ? Hge _]; subst.
  apply Hge. reflexivity.
Qed.

(** C4, amended: the resolver returns the surviving candidates in
    descending order of the tuple (preferred-label flag, label in upper
    case as [str.upper] gives it, mount point text), candidates with
    equal tuples in the order they were found; the flag is 1 exactly
    when the upper-cased label starts with one of the prefixes; for the
    labels OTHER, SLITLAMP_B, SLITLAMP_A (which [str.upper] leaves as
    they are) and the prefix SLITLAMP the order is SLITLAMP_B,
    SLITLAMP_A, OTHER; [choose_usb_target] is the first element, or
    nothing when there is none. This holds whatever [str.upper] does to
    letters outside ASCII. *)
Theorem C4_sorted_by_score :
  forall (env : Storage.Env) (dir : string) (prefixes : list string) (tree : Lsblk.Tree),
    PyStr.truthy (Storage.SLITCAM_STORAGE_DIR env) = false ->
    Storage._run_lsblk_json env = Lsblk.Returns tree ->
    let survivors := Storage.candidates_of env dir (Storage._flatten_lsblk tree) in
    let out := Storage.find_usb_mount_targets env dir prefixes in
    Permutation survivors out
    /\ sorted_desc (Storage.score env prefixes) out
    /\ (forall k, with_key (Storage.score env prefixes) k out
                  = with_key (Storage.score env prefixes) k survivors)
    /\ (forall t,
          Storage.score env prefixes t
          = (fst (fst (Storage.score env prefixes t)),
             Storage.str_upper env (PyStr.or_empty (Storage.label t)),
             Pathlib.str (Storage.mountpoint t)))
    /\ (forall t,
          fst (fst (Storage.score env prefixes t)) = 1 <->
          exists p, In p prefixes /\
                    PyStr.startswith
                      (Storage.str_upper env (PyStr.or_empty (Storage.label t))) p = true)
    /\ (forall t,
          fst (fst (Storage.score env prefixes t)) = 0 <->
          forall p, In p prefixes ->
                    PyStr.startswith
                      (Storage.str_upper env (PyStr.or_empty (Storage.label t))) p = false)
    /\ (forall upper : string -> string,
          upper "OTHER" = "OTHER" ->
          upper "SLITLAMP_B" = "SLITLAMP_B" ->
          upper "SLITLAMP_A" = "SLITLAMP_A" ->
          map Storage.label
            (Storage.find_usb_mount_targets (Examples.three_sticks_with upper)
               Storage.default_recordings_dir_name ["SLITLAMP"])
          = [Some "SLITLAMP_B"; Some "SLITLAMP_A"; Some "OTHER"])
    /\ Storage.choose_usb_target env
       = hd_error (Storage.find_usb_mount_targets env
                     Storage.default_recordings_dir_name
                     Storage.default_prefer_label_prefixes).
Proof.
  intros env dir prefixes tree Hov Hls survivors out.
  assert (E : out = Storage.sort_desc (Storage.score env prefixes) survivors)
    by (apply find_usb_mount_targets_lsblk; assumption).
  rewrite E.
  refine (conj _ (conj _ (conj _ (conj _ (conj _ (conj _ (conj _ _)))))));
    [| | | |intros t; split|intros t; split| |].
  - apply sort_desc_perm.
  - apply sort_desc_sorted.
  - intros k. apply sort_desc_stable.
  - intros t. reflexivity.
  - unfold Storage.score. simpl.
    destruct (existsb _ prefixes) eqn:Ex; [|discriminate].
    intros _. apply existsb_exists in Ex. exact Ex.
  - intros Hex. unfold Storage.score. simpl.
    destruct (existsb _ prefixes) eqn:Ex; [reflexivity|].
    apply not_true_iff_false in Ex. elim Ex.
    apply existsb_exists. exact Hex.
  - unfold Storage.score. simpl.
    destruct (existsb _ prefixes) eqn:Ex; [discriminate|].
    intros _ p Hp.
    destruct (PyStr.startswith _ p) eqn:Es; [|reflexivity].
    apply not_true_iff_false in Ex. elim Ex.
    apply existsb_exists. exists p. split; assumption.
  - intros Hall. unfold Storage.score. simpl.
    destruct (existsb _ prefixes) eqn:Ex; [|reflexivity].
    apply existsb_exists in Ex. destruct Ex as (p & Hp & Es).
    rewrite (Hall p Hp) in Es. discriminate.
  - intros upper H1 H2 H3.
    set (env3 := Examples.three_sticks_with upper).
    set (tree3 := Lsblk.mkTree
                    (Some [Examples.usb_disk [Examples.usb_partition "/media/a" "OTHER"];
                           Examples.usb_disk [Examples.usb_partition "/media/b" "SLITLAMP_B"];
                           Examples.usb_disk [Examples.usb_partition "/media/c" "SLITLAMP_A"]])).
    set (stick := fun mp lab =>
                    Storage.mkUsbTarget (Pathlib.of_str mp) (Some "/dev/sda1")
                      (Some "vfat") (Some lab)).
    rewrite (find_usb_mount_targets_lsblk env3 Storage.default_recordings_dir_name
               ["SLITLAMP"] tree3 eq_refl eq_refl).
    assert (Ec : Storage.candidates_of env3 Storage.default_recordings_dir_name
                   (Storage._flatten_lsblk tree3)
                 = [stick "/media/a/slitlamp-recordings" "OTHER";
                    stick "/media/b/slitlamp-recordings" "SLITLAMP_B";
                    stick "/media/c/slitlamp-recordings" "SLITLAMP_A"])
      by (vm_compute; reflexivity).
    rewrite Ec.
    assert (S1 : Storage.score env3 ["SLITLAMP"] (stick "/media/a/slitlamp-recordings" "OTHER")
                 = (0, "OTHER", "/media/a/slitlamp-recordings"))
      by (unfold Storage.score; cbn; rewrite H1; reflexivity).
    assert (S2 : Storage.score env3 ["SLITLAMP"]
                   (stick "/media/b/slitlamp-recordings" "SLITLAMP_B")
                 = (1, "SLITLAMP_B", "/media/b/slitlamp-recordings"))
      by (unfold Storage.score; cbn; rewrite H2; reflexivity).
    assert (S3 : Storage.score env3 ["SLITLAMP"]
                   (stick "/media/c/slitlamp-recordings" "SLITLAMP_A")
                 = (1, "SLITLAMP_A", "/media/c/slitlamp-recordings"))
      by (unfold Storage.score; cbn; rewrite H3; reflexivity).
    set (key := Storage.score env3 ["SLITLAMP"]) in *.
    set (tA := stick "/media/a/slitlamp-recordings" "OTHER") in *.
    set (tB := stick "/media/b/slitlamp-recordings" "SLITLAMP_B") in *.
    set (tC := stick "/media/c/slitlamp-recordings" "SLITLAMP_A") in *.
    change (Storage.sort_desc key [tA; tB; tC])
      with (Storage.insert_desc key tA (Storage.insert_desc key tB [tC])).
    assert (E1 : Storage.insert_desc key tB [tC] = [tB; tC]).
    { change (Storage.insert_desc key tB [tC])
        with (if Storage.score_ltb (key tB) (key tC)
              then tC :: Storage.insert_desc key tB [] else [tB; tC]).
      rewrite S2, S3. reflexivity. }
    rewrite E1.
    assert (E2 : Storage.insert_desc key tA [tB; tC] = tB :: Storage.insert_desc key tA [tC]).
    { change (Storage.insert_desc key tA [tB; tC])
        with (if Storage.score_ltb (key tA) (key tB)
              then tB :: Storage.insert_desc key tA [tC] else [tA; tB; tC]).
      rewrite S1, S2. reflexivity. }
    rewrite E2.
    assert (E3 : Storage.insert_desc key tA [tC] = [tC; tA]).
    { change (Storage.insert_desc key tA [tC])
        with (if Storage.score_ltb (key tA) (key tC)
              then tC :: Storage.insert_desc key tA [] else [tA; tC]).
      rewrite S1, S3. reflexivity. }
    rewrite E3. reflexivity.
  - unfold Storage.choose_usb_target.
    destruct (Storage.find_usb_mount_targets env _ _); reflexivity.
Qed.

Lemma C4_sorted_by_score_witness :
  map Storage.label
    (Storage.find_usb_mount_targets Examples.three_sticks
       Storage.default_recordings_dir_name Storage.default_prefer_label_prefixes)
  = [Some "SLITLAMP_B"; Some "SLITLAMP_A"; Some "OTHER"]
  /\ sorted_desc (Storage.score Examples.three_sticks Storage.default_prefer_label_prefixes)
       (Storage.find_usb_mount_targets Examples.three_sticks
          Storage.default_recordings_dir_name Storage.default_prefer_label_prefixes).
Proof.
  split; [vm_compute; reflexivity|].
  apply (C4_sorted_by_score Examples.three_sticks
           Storage.default_recordings_dir_name
           Storage.default_prefer_label_prefixes
           (Lsblk.mkTree (Some [Examples.usb_disk [Examples.usb_partition "/media/a" "OTHER"];
                                Examples.usb_disk [Examples.usb_partition "/media/b" "SLITLAMP_B"];
                                Examples.usb_disk [Examples.usb_partition "/media/c" "SLITLAMP_A"]]))
           eq_refl eq_refl).
Defined.

(** C5: a node whose mount point is [/] or begins with [/boot] gives no
    candidate, whatever its other fields and whatever the probe says; and
    every target the resolver returns after asking [lsblk] was built from
    a node of the listing whose mount point is neither. *)
Theorem C5_system_mounts_excluded :
  forall (env : Storage.Env) (dir : string) (prefixes : list string)
         (n : Lsblk.DeviceNode) (m : string),
    Lsblk.mountpoint n = Some m ->
    m = "/" \/ String.prefix "/boot" m = true ->
    Storage.candidate env dir n = None
    /\ forall tree t,
        PyStr.truthy (Storage.SLITCAM_STORAGE_DIR env) = false ->
        Storage._run_lsblk_json env = Lsblk.Returns tree ->
        In t (Storage.find_usb_mount_targets env dir prefixes) ->
        exists n' m',
          In n' (Storage._flatten_lsblk tree)
          /\ n' <> n
          /\ Storage.candidate env dir n' = Some t
          /\ Lsblk.mountpoint n' = Some m'
          /\ m' <> "/" /\ String.prefix "/boot" m' = false.
Proof.
  intros env dir prefixes n m Hm Hex.
  assert (Hnone : Storage.candidate env dir n = None).
  { destruct (Storage.candidate env dir n) as [t|] eqn:E; [|reflexivity].
    destruct (candidate_mountpoint _ _ _ _ E) as (m' & Em' & Hroot & Hboot).
    rewrite Hm in Em'. injection Em' as <-.
    destruct Hex as [->|Hp]; [now elim Hroot|congruence]. }
  split; [exact Hnone|].
  intros tree t Hov Hls Hin.
  rewrite (find_usb_mount_targets_lsblk _ _ _ _ Hov Hls) in Hin.
  apply (Permutation_in _ (Permutation_sym (sort_desc_perm _ _))) in Hin.
  apply candidates_of_In in Hin. destruct Hin as (n' & Hn' & Hc).
  destruct (candidate_mountpoint _ _ _ _ Hc) as (m' & Em' & Hroot & Hboot).
  exists n', m'. repeat split; try assumption.
  intros ->. congruence.
Qed.

Lemma C5_system_mounts_excluded_witness :
  Storage.find_usb_mount_targets
    (Examples.storage_env
       [Examples.usb_disk [Examples.usb_partition "/boot/firmware" "SLITLAMP"]])
    Storage.default_recordings_dir_name Storage.default_prefer_label_prefixes = []
  /\ Storage.candidate
       (Examples.storage_env
          [Examples.usb_disk [Examples.usb_partition "/boot/firmware" "SLITLAMP"]])
       Storage.default_recordings_dir_name
       (Examples.usb_partition "/boot/firmware" "SLITLAMP") = None.
Proof.
  split; [vm_compute; reflexivity|].
  apply (C5_system_mounts_excluded
           (Examples.storage_env
              [Examples.usb_disk [Examples.usb_partition "/boot/firmware" "SLITLAMP"]])
           Storage.default_recordings_dir_name Storage.default_prefer_label_prefixes
           (Examples.usb_partition "/boot/firmware" "SLITLAMP")
           "/boot/firmware" eq_refl (or_intror eq_refl)).
Defined.

(** C9: when no override is set and the call of [lsblk] fails (the tool
    is missing, it exits with a non-zero code, or its output does not
    parse), the resolver returns the empty list; nothing is raised, and
    [choose_usb_target] finds nothing. *)
Theorem C9_lsblk_failure_gives_empty :
  forall (env : Storage.Env) (dir : string) (prefixes : list string) (e : Lsblk.Failure),
    PyStr.truthy (Storage.SLITCAM_STORAGE_DIR env) = false ->
    Storage._run_lsblk_json env = Lsblk.Raises e ->
    Storage.find_usb_mount_targets env dir prefixes = []
    /\ Storage.choose_usb_target env = None.
Proof.
  intros env dir prefixes e Hov Hls.
  unfold Storage.choose_usb_target, Storage.find_usb_mount_targets.
  rewrite Hov, Hls. split; reflexivity.
Qed.

Lemma C9_lsblk_failure_gives_empty_witness :
  Storage.find_usb_mount_targets (Examples.failing_lsblk (Lsblk.NonZeroExit 32))
    Storage.default_recordings_dir_name Storage.default_prefer_label_prefixes = []
  /\ Storage.choose_usb_target (Examples.failing_lsblk (Lsblk.NonZeroExit 32)) = None.
Proof.
  apply (C9_lsblk_failure_gives_empty (Examples.failing_lsblk (Lsblk.NonZeroExit 32))
           Storage.default_recordings_dir_name Storage.default_prefer_label_prefixes
           (Lsblk.NonZeroExit 32) eq_refl eq_refl).
Defined.

(* ================================================================== *)
(** * Facts about processes *)
(* ================================================================== *)

Section ProcessFacts.

Import OS.

Lemma nth_error_update {A : Type} (f : A -> A) (l : list A) :
  forall i j,
    nth_error (update l i f) j
    = if Nat.eqb j i then option_map f (nth_error l j) else nth_error l j.
Proof.
  induction l as [|x l IH]; intros [|i] [|j]; simpl; try reflexivity.
  - destruct (Nat.eqb j i); reflexivity.
  - apply IH.
Qed.

Lemma poll_procs (w w' : World) (p : Popen) :
  procs w' = procs w -> poll w' p = poll w p.
Proof. unfold poll. now intros ->. Qed.

Lemma poll_log (w : World) (a : Action) (p : Popen) : poll (log w a) p = poll w p.
Proof. reflexivity. Qed.

(** No process comes back to life between [w] and [w']. *)
Definition no_revival (w w' : World) : Prop :=
  forall q, poll w' q = None -> poll w q = None.

(** Only the process [p] may have changed its state from [w] to [w']. *)
Definition others_kept (p : Popen) (w w' : World) : Prop :=
  forall q, q <> p -> poll w' q = poll w q.

Lemma poll_send_signal (w : World) (p : Popen) (s : Signal) (q : Popen) :
  poll (send_signal w p s) q = poll w q.
Proof.
  unfold send_signal. destruct (poll w p) eqn:E; [reflexivity|].
  unfold poll in *. simpl. rewrite nth_error_update.
  destruct (Nat.eqb q p) eqn:Eq; [|reflexivity].
  apply Nat.eqb_eq in Eq. subst q.
  destruct (nth_error (procs w) p); reflexivity.
Qed.

Lemma trace_send_signal (w : World) (p : Popen) (s : Signal) :
  trace (send_signal w p s) = trace w ++ [ASendSignal p s].
Proof. unfold send_signal. destruct (poll w p); reflexivity. Qed.

(** The state of a running process once a signal has been sent to it. *)
Lemma nth_error_send_signal (w : World) (p : Popen) (s : Signal) (pr : Process) :
  nth_error (procs w) p = Some pr -> returncode pr = None ->
  nth_error (procs (send_signal w p s)) p
  = Some (mkProcess None (pending pr ++ [s]) (exits_on_sigint pr) (exits_on_sigterm pr)).
Proof.
  intros Hn Hr. unfold send_signal, poll. rewrite Hn, Hr. simpl.
  rewrite nth_error_update, Nat.eqb_refl, Hn. simpl. now rewrite Hr.
Qed.

Lemma trace_wait (w : World) (p : Popen) (t : option Q) :
  trace (fst (wait w p t)) = trace w ++ [AWait p t].
Proof.
  unfold wait. destruct (nth_error (procs w) p) as [pr|]; [|reflexivity].
  destruct (returncode pr); [reflexivity|].
  destruct (find (reacts pr) (pending pr)); [reflexivity|].
  destruct t; reflexivity.
Qed.

Lemma wait_others (w : World) (p : Popen) (t : option Q) :
  others_kept p w (fst (wait w p t)).
Proof.
  intros q Hq. unfold wait.
  destruct (nth_error (procs w) p) as [pr|]; [|reflexivity].
  destruct (returncode pr); [reflexivity|].
  destruct (find (reacts pr) (pending pr)); [|destruct t; reflexivity].
  unfold poll. simpl. rewrite nth_error_update.
  apply Nat.eqb_neq in Hq. now rewrite Hq.
Qed.

(** What [wait] answers, by the state of the process. *)
Lemma wait_result (w : World) (p : Popen) (t : option Q) :
  match snd (wait w p t) with
  | Exited _ => poll (fst (wait w p t)) p <> None
  | TimeoutExpired =>
      t <> None /\ poll w p = None /\ procs (fst (wait w p t)) = procs w
  | Blocked =>
      t = None /\
      exists pr, nth_error (procs w) p = Some pr /\ returncode pr = None
                 /\ find (reacts pr) (pending pr) = None
  end.
Proof.
  unfold wait.
  destruct (nth_error (procs w) p) as [pr|] eqn:En.
  - destruct (returncode pr) as [rc|] eqn:Er.
    + cbn [fst snd]. rewrite poll_log. unfold poll. rewrite En, Er. discriminate.
    + destruct (find (reacts pr) (pending pr)) eqn:Ef.
      * cbn [fst snd]. unfold poll. cbn [procs].
        rewrite nth_error_update, Nat.eqb_refl. cbn [procs log]. rewrite En.
        discriminate.
      * destruct t; cbn [fst snd].
        -- unfold poll. rewrite En. repeat split; [discriminate|assumption].
        -- split; [reflexivity|]. exists pr. auto.
  - cbn [fst snd]. rewrite poll_log. unfold poll. rewrite En. discriminate.
Qed.

Lemma wait_timeout_kept (w : World) (p : Popen) (t : option Q) :
  snd (wait w p t) = TimeoutExpired -> forall q, poll (fst (wait w p t)) q = poll w q.
Proof.
  intros H q. pose proof (wait_result w p t) as R. rewrite H in R.
  apply poll_procs. apply R.
Qed.

Lemma find_last_true {A : Type} (f : A -> bool) (l : list A) (x : A) :
  f x = true -> find f (l ++ [x]) <> None.
Proof.
  intros H. induction l as [|y l IH]; simpl.
  - rewrite H. discriminate.
  - destruct (f y); [discriminate|assumption].
Qed.

(** Once [SIGKILL] has been sent, a wait without timeout returns. *)
Lemma wait_after_kill (w : World) (p : Popen) :
  snd (wait (send_signal w p SIGKILL) p None) <> Blocked.
Proof.
  intros H. pose proof (wait_result (send_signal w p SIGKILL) p None) as R.
  rewrite H in R. destruct R as (_ & pr & Hn & Hr & Hf).
  assert (Hp : poll w p = None).
  { rewrite <- (poll_send_signal w p SIGKILL p). unfold poll. now rewrite Hn. }
  unfold poll in Hp. destruct (nth_error (procs w) p) as [pr0|] eqn:E0; [|discriminate].
  rewrite (nth_error_send_signal w p SIGKILL pr0 E0 Hp) in Hn.
  injection Hn as <-. simpl in Hf.
  now apply (find_last_true (reacts pr0) (pending pr0) SIGKILL) in Hf.
Qed.

(** [stop_recording] on a running process always returns, without an
    error, and then the process has exited; no other process is touched. *)
Lemma stop_recording_exits (w : World) (p : Popen) (t : Q) :
  exists w',
    Camera.stop_recording w (Some p) t = Some (w', Ok tt)
    /\ poll w' p <> None
    /\ others_kept p w w'.
Proof.
  unfold Camera.stop_recording.
  destruct (poll w p) eqn:Hp.
  { exists w. split; [reflexivity|]. split; [congruence|]. intros q _. reflexivity. }
  set (w1 := send_signal w p SIGINT).
  pose proof (wait_result w1 p (Some t)) as R1.
  pose proof (wait_others w1 p (Some t)) as O1.
  destruct (wait w1 p (Some t)) as [w2 r1] eqn:E1. simpl in R1, O1.
  assert (K1 : others_kept p w w2).
  { intros q Hq. rewrite (O1 q Hq). apply poll_send_signal. }
  destruct r1.
  - exists w2. auto.
  - set (w3 := send_signal w2 p SIGTERM).
    pose proof (wait_result w3 p (Some t)) as R2.
    pose proof (wait_others w3 p (Some t)) as O2.
    destruct (wait w3 p (Some t)) as [w4 r2] eqn:E2. simpl in R2, O2.
    assert (K2 : others_kept p w w4).
    { intros q Hq. rewrite (O2 q Hq). unfold w3. rewrite poll_send_signal. auto. }
    destruct r2.
    + exists w4. auto.
    + set (w5 := send_signal w4 p SIGKILL).
      pose proof (wait_result w5 p None) as R3.
      pose proof (wait_others w5 p None) as O3.
      pose proof (wait_after_kill w4 p) as B3. fold w5 in B3.
      destruct (wait w5 p None) as [w6 r3] eqn:E3. simpl in R3, O3, B3.
      assert (K3 : others_kept p w w6).
      { intros q Hq. rewrite (O3 q Hq). unfold w5. rewrite poll_send_signal. auto. }
      destruct r3.
      * exists w6. auto.
      * destruct R3 as [R3 _]. now elim R3.
      * now elim B3.
    + destruct R2 as [R2 _]. discriminate.
  - destruct R1 as [R1 _]. discriminate.
Qed.

Lemma poll_exit_on_its_own (w : World) (p : Popen) (rc : Z) :
  no_revival w (exit_on_its_own w p rc).
Proof.
  intros q. unfold exit_on_its_own, poll. simpl. rewrite nth_error_update.
  destruct (Nat.eqb q p); [|auto].
  destruct (nth_error (procs w) q) as [pr|]; simpl; [|auto].
  destruct (returncode pr) eqn:E; simpl; [rewrite E; auto|discriminate].
Qed.

Lemma exit_on_its_own_exits (w : World) (p : Popen) (rc : Z) :
  poll (exit_on_its_own w p rc) p <> None.
Proof.
  unfold exit_on_its_own, poll. simpl. rewrite nth_error_update, Nat.eqb_refl.
  destruct (nth_error (procs w) p) as [pr|]; simpl; [|discriminate].
  destruct (returncode pr) eqn:E; simpl; [rewrite E|]; discriminate.
Qed.

Lemma trace_exit_on_its_own (w : World) (p : Popen) (rc : Z) :
  trace (exit_on_its_own w p rc) = trace w.
Proof. reflexivity. Qed.

(** What [start_recording] leaves behind. *)
Lemma start_recording_ok env w path fps w' p :
  Camera.start_recording env w path fps = (w', Ok p) ->
  p = List.length (procs w)
  /\ exists a b, procs w' = procs w ++ [mkProcess None [] a b].
Proof.
  unfold Camera.start_recording.
  destruct (mkdir env _); [discriminate|].
  destruct (Camera.get_camera_command env) as [cmd|]; [|discriminate].
  destruct (Camera.get_extra_camera_args env) as [extra|]; [|discriminate].
  destruct (popen env _) as [[x y]|]; [|discriminate].
  intros H. injection H as <- <-. split; [reflexivity|].
  exists x, y. reflexivity.
Qed.

Lemma start_recording_raise env w path fps w' exc :
  Camera.start_recording env w path fps = (w', Raise exc) ->
  procs w' = procs w.
Proof.
  unfold Camera.start_recording.
  destruct (mkdir env _); [intros H; injection H as <- _; reflexivity|].
  destruct (Camera.get_camera_command env) as [cmd|];
    [|intros H; injection H as <- _; reflexivity].
  destruct (Camera.get_extra_camera_args env) as [extra|];
    [|intros H; injection H as <- _; reflexivity].
  destruct (popen env _) as [[x y]|]; [discriminate|].
  intros H; injection H as <- _; reflexivity.
Qed.

Lemma poll_started (w : World) (pr : Process) (tr : list Action) (q : Popen) :
  returncode pr = None ->
  poll (mkWorld (procs w ++ [pr]) tr) q
  = if Nat.eqb q (List.length (procs w)) then None else poll w q.
Proof.
  intros Hr. unfold poll. simpl.
  destruct (Nat.eqb q (List.length (procs w))) eqn:E.
  - apply Nat.eqb_eq in E. subst q.
    rewrite nth_error_app2, Nat.sub_diag by lia. simpl. assumption.
  - apply Nat.eqb_neq in E.
    destruct (Nat.lt_ge_cases q (List.length (procs w))) as [L|G].
    + now rewrite nth_error_app1.
    + rewrite nth_error_app2 by assumption.
      destruct (q - List.length (procs w)) as [|k] eqn:Ek; [lia|].
      simpl. destruct k; simpl;
        now rewrite (proj2 (nth_error_None (procs w) q) G).
Qed.

Lemma convert_to_mp4_procs env w h264 del :
  procs (fst (Camera.convert_to_mp4 env w h264 del)) = procs w.
Proof.
  unfold Camera.convert_to_mp4.
  destruct (negb (which env "ffmpeg")); [reflexivity|].
  destruct (Pathlib.with_suffix h264 ".mp4"); [|reflexivity].
  destruct (run env _); [|reflexivity].
  destruct (negb _); [reflexivity|].
  destruct (run env ["sync"]); [|reflexivity].
  destruct del; [|reflexivity].
  destruct (exists_ env _) as [[|]|]; reflexivity.
Qed.

(** The list of running processes and [poll] agree. *)
Lemma live_from_In (l : list Process) :
  forall i p,
    In p (live_from i l) <->
    i <= p /\ exists pr, nth_error l (p - i) = Some pr /\ returncode pr = None.
Proof.
  induction l as [|x l IH]; intros i p; simpl.
  - split; [tauto|]. intros (_ & pr & H & _). destruct (p - i); discriminate.
  - assert (Step : In p (live_from (S i) l) <->
                   i < p /\ exists pr, nth_error (x :: l) (p - i) = Some pr
                                       /\ returncode pr = None).
    { rewrite IH. split.
      - intros (L & pr & Hn & Hr). split; [lia|]. exists pr.
        replace (p - i) with (S (p - S i)) by lia. auto.
      - intros (L & pr & Hn & Hr). split; [lia|]. exists pr.
        replace (p - i) with (S (p - S i)) in Hn by lia. auto. }
    destruct (returncode x) eqn:Ex; simpl; rewrite Step; split.
    + intros (L & H). split; [lia|assumption].
    + intros (L & pr & Hn & Hr). split; [|eauto].
      destruct (Nat.eq_dec i p) as [->|]; [|lia].
      rewrite Nat.sub_diag in Hn. simpl in Hn. congruence.
    + intros [->|(L & H)]; [|split; [lia|assumption]].
      split; [lia|]. exists x. rewrite Nat.sub_diag. auto.
    + intros (L & H). destruct (Nat.eq_dec i p) as [->|]; [now left|right].
      split; [lia|assumption].
Qed.

Lemma live_In (w : World) (p : Popen) : In p (live w) <-> poll w p = None.
Proof.
  unfold live, poll. rewrite live_from_In, Nat.sub_0_r. split.
  - intros (_ & pr & -> & Hr). assumption.
  - intros H. split; [lia|].
    destruct (nth_error (procs w) p) as [pr|]; [eauto|discriminate].
Qed.

Lemma live_from_NoDup (l : list Process) : forall i, NoDup (live_from i l).
Proof.
  induction l as [|x l IH]; intros i; simpl; [constructor|].
  destruct (returncode x); [apply IH|].
  constructor; [|apply IH].
  rewrite live_from_In. intros (L & _). lia.
Qed.


Lemma live_at_most_one (w : World) :
  (forall p q, poll w p = None -> poll w q = None -> p = q) ->
  List.length (live w) <= 1.
Proof.
  intros H. pose proof (live_from_NoDup (procs w) 0) as N. fold (live w) in N.
  destruct (live w) as [|p [|q l]] eqn:E; simpl; try lia.
  assert (p = q).
  { apply H; apply live_In; rewrite E; simpl; auto. }
  subst. inversion N as [|? ? Hnin _]. elim Hnin. now left.
Qed.

End ProcessFacts.

(* ================================================================== *)
(** * Stopping the capture process *)
(* ================================================================== *)

Section StopFacts.

Import OS.

(** Sending a signal to a running process and waiting for it. *)
Lemma signal_then_wait (w : World) (p : Popen) (s : Signal) (t : option Q)
      (pr : Process) :
  nth_error (procs w) p = Some pr -> returncode pr = None ->
  let w1 := send_signal w p s in
  trace (fst (wait w1 p t)) = trace w ++ [ASendSignal p s; AWait p t]
  /\ match find (reacts pr) (pending pr ++ [s]) with
     | Some s' =>
         snd (wait w1 p t) = Exited (- signum s')
     | None =>
         snd (wait w1 p t)
         = match t with Some _ => TimeoutExpired | None => Blocked end
         /\ nth_error (procs (fst (wait w1 p t))) p
            = Some (mkProcess None (pending pr ++ [s])
                      (exits_on_sigint pr) (exits_on_sigterm pr))
     end.
Proof.
  intros Hn Hr w1. split.
  - rewrite trace_wait. unfold w1. rewrite trace_send_signal.
    rewrite <- app_assoc. reflexivity.
  - pose proof (nth_error_send_signal w p s pr Hn Hr) as H1. fold w1 in H1.
    unfold wait. rewrite H1. cbn [returncode pending].
    change (reacts (mkProcess None (pending pr ++ [s]) (exits_on_sigint pr)
                      (exits_on_sigterm pr)))
      with (reacts pr).
    destruct (find (reacts pr) (pending pr ++ [s])); [reflexivity|].
    destruct t; split; try reflexivity; cbn [fst log procs]; exact H1.
Qed.

End StopFacts.

(** C3: [stop_recording] on a running process with no signal pending
    sends SIGINT and waits up to [timeout]; if the process has not
    exited it sends SIGTERM and waits up to [timeout] again; if it still
    has not exited it sends SIGKILL and waits without a timeout. These
    are all the calls it makes, it always returns, and when it returns the
    process has exited. On a process that has exited, or without a
    handle, it does nothing. *)
Theorem C3_stop_three_tiers :
  forall (w : OS.World) (proc : OS.Popen) (timeout : Q) (pr : OS.Process),
    nth_error (OS.procs w) proc = Some pr ->
    OS.returncode pr = None ->
    OS.pending pr = [] ->
    (exists w',
        Camera.stop_recording w (Some proc) timeout = Some (w', OS.Ok tt)
        /\ OS.poll w' proc <> None
        /\ OS.trace w'
           = OS.trace w ++
             (if OS.exits_on_sigint pr then
                [OS.ASendSignal proc OS.SIGINT; OS.AWait proc (Some timeout)]
              else if OS.exits_on_sigterm pr then
                [OS.ASendSignal proc OS.SIGINT; OS.AWait proc (Some timeout);
                 OS.ASendSignal proc OS.SIGTERM; OS.AWait proc (Some timeout)]
              else
                [OS.ASendSignal proc OS.SIGINT; OS.AWait proc (Some timeout);
                 OS.ASendSignal proc OS.SIGTERM; OS.AWait proc (Some timeout);
                 OS.ASendSignal proc OS.SIGKILL; OS.AWait proc None]))
    /\ (forall w0 p0 rc,
           OS.poll w0 p0 = Some rc ->
           Camera.stop_recording w0 (Some p0) timeout = Some (w0, OS.Ok tt))
    /\ (forall w0, Camera.stop_recording w0 None timeout = Some (w0, OS.Ok tt)).
Proof.
  intros w proc timeout pr Hn Hr Hp.
  split; [|split].
  - destruct (stop_recording_exits w proc timeout) as (w' & Hstop & Hexit & _).
    exists w'. split; [exact Hstop|]. split; [exact Hexit|].
    revert Hstop. unfold Camera.stop_recording.
    assert (Hpoll : OS.poll w proc = None) by (unfold OS.poll; now rewrite Hn).
    rewrite Hpoll.
    destruct (signal_then_wait w proc OS.SIGINT (Some timeout) pr Hn Hr)
      as [T1 R1].
    rewrite Hp in R1. simpl in R1.
    destruct (OS.wait (OS.send_signal w proc OS.SIGINT) proc (Some timeout))
      as [w2 r1].
    cbn [fst snd] in T1, R1.
    destruct (OS.exits_on_sigint pr) eqn:Eint.
    + rewrite R1. intros H. injection H as <-. exact T1.
    + destruct R1 as [-> N2].
      match type of N2 with
      | _ = Some ?x => set (pr2 := x) in *
      end.
      destruct (signal_then_wait w2 proc OS.SIGTERM (Some timeout) pr2 N2 eq_refl)
        as [T2 R2].
      unfold pr2 in R2. simpl in R2.
      destruct (OS.wait (OS.send_signal w2 proc OS.SIGTERM) proc (Some timeout))
        as [w4 r2].
      cbn [fst snd] in T2, R2.
      destruct (OS.exits_on_sigterm pr) eqn:Eterm.
      * rewrite R2. intros H. injection H as <-.
        rewrite T2, T1, <- app_assoc. reflexivity.
      * destruct R2 as [-> N4].
        match type of N4 with
        | _ = Some ?x => set (pr4 := x) in *
        end.
        destruct (signal_then_wait w4 proc OS.SIGKILL None pr4 N4 eq_refl)
          as [T3 R3].
        unfold pr4 in R3. simpl in R3.
        destruct (OS.wait (OS.send_signal w4 proc OS.SIGKILL) proc None)
          as [w6 r3].
        cbn [fst snd] in T3, R3. rewrite R3.
        intros H. injection H as <-.
        rewrite T3, T2, T1, <- !app_assoc. reflexivity.
  - intros w0 p0 rc H. unfold Camera.stop_recording. now rewrite H.
  - reflexivity.
Qed.

Lemma C3_stop_three_tiers_witness :
  exists w',
    Camera.stop_recording
      (OS.mkWorld [OS.mkProcess None [] false false] []) (Some 0) Camera.default_timeout
    = Some (w', OS.Ok tt)
    /\ OS.poll w' 0 <> None
    /\ OS.trace w'
       = [OS.ASendSignal 0 OS.SIGINT; OS.AWait 0 (Some Camera.default_timeout);
          OS.ASendSignal 0 OS.SIGTERM; OS.AWait 0 (Some Camera.default_timeout);
          OS.ASendSignal 0 OS.SIGKILL; OS.AWait 0 None].
Proof.
  exact (proj1 (C3_stop_three_tiers
                  (OS.mkWorld [OS.mkProcess None [] false false] []) 0
                  Camera.default_timeout (OS.mkProcess None [] false false)
                  eq_refl eq_refl eq_refl)).
Defined.

(* ================================================================== *)
(** * The recording service *)
(* ================================================================== *)

(** What can happen to a service between two polls: an edge of the
    button calls one of its handlers, or the capture process ends by
    itself. *)
Inductive Event : Type :=
| Pressed (env : OS.Env)
| Released (env : OS.Env)
| Died (proc : OS.Popen) (rc : Z).

Definition step (e : Event) (s : Recorder.Sys) : Recorder.Res unit :=
  match e with
  | Pressed env => Recorder.Normal tt (Recorder._on_button_pressed env s)
  | Released env => Recorder._on_button_released env s
  | Died proc rc => Recorder.Normal tt (fst s, OS.exit_on_its_own (snd s) proc rc)
  end.

(** The events one after the other; an exception ends the sequence. *)
Fixpoint feed (events : list Event) (s : Recorder.Sys) : Recorder.Res unit :=
  match events with
  | [] => Recorder.Normal tt s
  | e :: events' =>
      match step e s with
      | Recorder.Normal _ s' => feed events' s'
      | r => r
      end
  end.

(** The only process that may run is the one the service holds. *)
Definition Inv (s : Recorder.Sys) : Prop :=
  forall q, OS.poll (snd s) q = None -> Recorder._proc (fst s) = Some q.

(** No process runs. *)
Definition no_live (w : OS.World) : Prop := forall q, OS.poll w q <> None.

(** The calls of [subprocess.Popen] in a trace, failed ones included. *)
Fixpoint popen_attempts (tr : list OS.Action) : nat :=
  match tr with
  | [] => 0
  | OS.APopen _ _ :: tr' => S (popen_attempts tr')
  | OS.APopenFailed _ :: tr' => S (popen_attempts tr')
  | _ :: tr' => popen_attempts tr'
  end.

(** A method ended, by returning or by an exception, in a state that
    satisfies [P]. *)
Definition ends_in {A : Type} (P : Recorder.Sys -> Prop) (r : Recorder.Res A) : Prop :=
  match r with
  | Recorder.Normal _ s => P s
  | Recorder.Raised _ s => P s
  | Recorder.Hang => False
  end.

Section RecorderFacts.

Import OS Recorder.

Lemma ends_in_weaken {A : Type} (P Q : Sys -> Prop) (r : Res A) :
  (forall s, P s -> Q s) -> ends_in P r -> ends_in Q r.
Proof. destruct r; simpl; auto. Qed.

Lemma Inv_at_most_one (s : Sys) :
  Inv s -> forall p q, poll (snd s) p = None -> poll (snd s) q = None -> p = q.
Proof.
  intros H p q Hp Hq. apply H in Hp, Hq. congruence.
Qed.

Lemma Inv_live (s : Sys) : Inv s -> List.length (live (snd s)) <= 1.
Proof. intros H. apply live_at_most_one. now apply Inv_at_most_one. Qed.

Lemma no_live_Inv (svc : RecordingService) (w : World) : no_live w -> Inv (svc, w).
Proof. intros H q Hq. now elim (H q). Qed.

Lemma recording_true (svc : RecordingService) (w : World) :
  recording svc w = true <-> exists p, _proc svc = Some p /\ poll w p = None.
Proof.
  unfold recording. destruct (_proc svc) as [p|].
  - destruct (poll w p) eqn:E; split; try discriminate.
    + intros (p' & H & H'). injection H as <-. congruence.
    + intros _. eauto.
    + reflexivity.
  - split; [discriminate|]. intros (p & H & _). discriminate.
Qed.

Lemma not_recording_no_live (svc : RecordingService) (w : World) :
  Inv (svc, w) -> recording svc w = false -> no_live w.
Proof.
  intros HI Hr q Hq.
  assert (recording svc w = true) by (apply recording_true; eauto).
  congruence.
Qed.

Lemma pressed_while_recording env svc w :
  recording svc w = true ->
  _on_button_pressed env (svc, w)
  = (_status svc "Already recording, ignoring press", w).
Proof. intros H. unfold _on_button_pressed. now rewrite H. Qed.

Lemma pressed_Inv env s : Inv s -> Inv (_on_button_pressed env s).
Proof.
  destruct s as [svc w]. intros HI. unfold _on_button_pressed.
  destruct (recording svc w) eqn:Hr; [exact HI|].
  pose proof (not_recording_no_live svc w HI Hr) as Hdead.
  destruct (Camera.start_recording env w _ Camera.DEFAULT_FPS) as [w' [p|exc]] eqn:Es.
  - destruct (start_recording_ok _ _ _ _ _ _ Es) as (-> & a & b & Hprocs).
    intros q Hq. cbn [fst snd] in *.
    rewrite (poll_procs (mkWorld (procs w ++ [mkProcess None [] a b]) (trace w')) w'
               q Hprocs) in Hq.
    rewrite poll_started in Hq by reflexivity.
    destruct (Nat.eqb q (List.length (procs w))) eqn:E.
    + apply Nat.eqb_eq in E. now subst.
    + now elim (Hdead q).
  - apply no_live_Inv. intros q. rewrite (poll_procs w w').
    + apply Hdead.
    + eapply start_recording_raise; eauto.
Qed.

(** After a release that found the service recording, nothing runs. *)
Lemma released_while_recording env svc w :
  Inv (svc, w) -> recording svc w = true ->
  ends_in (fun s => no_live (snd s) /\ _proc (fst s) = None)
    (_on_button_released env (svc, w)).
Proof.
  intros HI Hr. unfold _on_button_released. rewrite Hr. cbn [negb].
  apply recording_true in Hr. destruct Hr as (p & Hp & Halive).
  cbn [_proc _status]. rewrite Hp.
  destruct (stop_recording_exits w p Camera.default_timeout)
    as (w' & -> & Hexit & Hothers).
  assert (Hdead : no_live w').
  { intros q. destruct (Nat.eq_dec q p) as [->|Hq]; [exact Hexit|].
    rewrite (Hothers q Hq). intros Hq'. apply HI in Hq'. cbn in Hq'. congruence. }
  cbn [_current_h264 set_proc _status].
  destruct (_current_h264 svc) as [h|]; [|now split].
  destruct (exists_ env h) as [[|]|exc0]; [|now split|now split].
  destruct (Pathlib.with_suffix h ".mp4"); [|now split].
  pose proof (convert_to_mp4_procs env w' h false) as Hc.
  destruct (Camera.convert_to_mp4 env w' h false) as [w'' [mp4|exc]];
    cbn [fst] in Hc; split; try reflexivity;
    intros q; cbn [snd]; rewrite (poll_procs w' w'' q Hc); apply Hdead.
Qed.

Lemma released_while_idle env svc w :
  recording svc w = false ->
  _on_button_released env (svc, w)
  = Normal tt (_status svc "Not recording, ignoring release", w).
Proof. intros H. unfold _on_button_released. now rewrite H. Qed.

Lemma released_Inv env s : Inv s -> ends_in Inv (_on_button_released env s).
Proof.
  destruct s as [svc w]. intros HI.
  destruct (recording svc w) eqn:Hr.
  - eapply ends_in_weaken; [|apply released_while_recording; assumption].
    intros [svc' w'] [H _]. now apply no_live_Inv.
  - rewrite released_while_idle by assumption. exact HI.
Qed.

Lemma died_Inv p rc s : Inv s -> Inv (fst s, exit_on_its_own (snd s) p rc).
Proof.
  intros HI q Hq. apply HI. now apply poll_exit_on_its_own in Hq.
Qed.

Lemma step_Inv e s : Inv s -> ends_in Inv (step e s).
Proof.
  intros HI. destruct e as [env|env|p rc]; simpl.
  - now apply pressed_Inv.
  - now apply released_Inv.
  - now apply died_Inv.
Qed.

Lemma feed_Inv events : forall s, Inv s -> ends_in Inv (feed events s).
Proof.
  induction events as [|e events IH]; intros s HI; simpl; [exact HI|].
  pose proof (step_Inv e s HI) as H.
  destruct (step e s) as [[] s'|exc s'|]; simpl in H; auto.
Qed.

End RecorderFacts.

(** C2: whatever edges and process deaths a service goes through, at
    most one capture process runs, and it is the one the service holds;
    the handlers never hang. A Pressed edge that finds the process of
    the session running only adds a status message: no process is
    started, nothing outside the service changes. So after two Pressed
    edges in a row there is still at most one running process, and if the
    first one started a session the second one left everything outside
    the service as it was. *)
Theorem C2_at_most_one_session :
  forall (events : list Event) (s : Recorder.Sys),
    Inv s ->
    ends_in (fun s' =>
               (forall p q, OS.poll (snd s') p = None -> OS.poll (snd s') q = None -> p = q)
               /\ List.length (OS.live (snd s')) <= 1
               /\ (forall p, In p (OS.live (snd s')) -> Recorder._proc (fst s') = Some p))
      (feed events s)
    /\ (forall env svc w,
           Recorder.recording svc w = true ->
           Recorder._on_button_pressed env (svc, w)
           = (Recorder._status svc "Already recording, ignoring press", w))
    /\ (forall env1 env2,
           let s1 := Recorder._on_button_pressed env1 s in
           let s2 := Recorder._on_button_pressed env2 s1 in
           List.length (OS.live (snd s2)) <= 1
           /\ (Recorder.recording (fst s1) (snd s1) = true ->
               snd s2 = snd s1
               /\ Recorder._proc (fst s2) = Recorder._proc (fst s1)
               /\ Recorder._current_h264 (fst s2) = Recorder._current_h264 (fst s1))).
Proof.
  intros events s HI. split; [|split].
  - eapply ends_in_weaken; [|apply feed_Inv; exact HI].
    intros s' HI'. split; [now apply Inv_at_most_one|].
    split; [now apply Inv_live|].
    intros p Hp. apply HI'. now apply live_In.
  - intros env svc w. apply pressed_while_recording.
  - intros env1 env2 s1 s2. split.
    + apply Inv_live. unfold s2, s1. now do 2 apply pressed_Inv.
    + intros Hr. unfold s2. destruct s1 as [svc1 w1]. cbn [fst snd] in *.
      rewrite pressed_while_recording by assumption. now cbn.
Qed.

Lemma C2_at_most_one_session_witness :
  List.length
    (OS.live
       (snd (Recorder._on_button_pressed (Examples.good_env "20240101_120005")
               (Recorder._on_button_pressed (Examples.good_env "20240101_120000")
                  (Examples.service0 (Pathlib.of_str "/media/usb/rec"),
                   Examples.empty_world))))) <= 1.
Proof.
  refine (proj1 (proj2 (proj2
            (C2_at_most_one_session []
               (Examples.service0 (Pathlib.of_str "/media/usb/rec"), Examples.empty_world)
               _))
            (Examples.good_env "20240101_120000")
            (Examples.good_env "20240101_120005"))).
  intros [|q] H; vm_compute in H; discriminate.
Defined.

Section StartupFacts.

Import OS Recorder.

Lemma pressed_keeps_button env s :
  _button (fst (_on_button_pressed env s)) = _button (fst s)
  /\ _running (fst (_on_button_pressed env s)) = _running (fst s)
  /\ output_dir (fst (_on_button_pressed env s)) = output_dir (fst s).
Proof.
  destruct s as [svc w]. unfold _on_button_pressed.
  destruct (recording svc w); [now cbn|].
  destruct (Camera.start_recording env w _ Camera.DEFAULT_FPS) as [w' [p|exc]];
    now cbn.
Qed.

Lemma is_pressed_set_last_state {cb : Type} (b : Gpio.LatchingButton cb)
      (v : option bool) (line : bool) :
  Gpio.is_pressed (Gpio.set_last_state b v) line = Gpio.is_pressed b line.
Proof. reflexivity. Qed.

(** A poll that reads the level the button remembers calls nothing. *)
Lemma poll_same_level {cb : Type} (b : Gpio.LatchingButton cb) (line : bool) :
  Gpio._last_state b = Some (Gpio.is_pressed b line) ->
  Gpio.poll b line = (b, None).
Proof.
  intros H. unfold Gpio.poll. rewrite H, Bool.eqb_reflx. reflexivity.
Qed.

Lemma popen_attempts_app (a b : list Action) :
  popen_attempts (a ++ b) = popen_attempts a + popen_attempts b.
Proof.
  induction a as [|x a IH]; simpl; [reflexivity|].
  destruct x; simpl; rewrite IH; reflexivity.
Qed.

(** [start_recording] calls [Popen] at most once. *)
Lemma start_recording_attempts env w path fps :
  popen_attempts (trace (fst (Camera.start_recording env w path fps)))
  <= popen_attempts (trace w) + 1.
Proof.
  unfold Camera.start_recording.
  destruct (mkdir env _); [cbn; lia|].
  destruct (Camera.get_camera_command env) as [cmd|];
    [|cbn; rewrite popen_attempts_app; cbn; lia].
  destruct (Camera.get_extra_camera_args env) as [extra|];
    [|cbn; rewrite popen_attempts_app; cbn; lia].
  destruct (popen env _) as [[x y]|exc]; cbn;
    rewrite !popen_attempts_app; cbn; lia.
Qed.

Lemma pressed_attempts env s :
  popen_attempts (trace (snd (_on_button_pressed env s)))
  <= popen_attempts (trace (snd s)) + 1.
Proof.
  destruct s as [svc w]. unfold _on_button_pressed.
  destruct (recording svc w); [cbn; lia|].
  pose proof (start_recording_attempts env w
                (output_dir svc </> ("rec_" ++ now env ++ ".h264"))
                Camera.DEFAULT_FPS) as H.
  destruct (Camera.start_recording env w _ Camera.DEFAULT_FPS) as [w' [p|exc]];
    exact H.
Qed.

End StartupFacts.

(** C6: on an input that is pressed, [check_initial_state] hands back
    exactly one callable, the one for Pressed, and remembers the level;
    a poll that follows at the same level hands back none. In the
    service: the startup of [run] is one call of the Pressed handler (and
    no call of the Released handler) on a service whose button remembers
    the level, and the first poll at that level leaves everything as it
    is. *)
Theorem C6_initial_press_once :
  forall (svc : Recorder.RecordingService) (w : OS.World) (line0 : bool)
         (env0 env1 : OS.Env),
    Gpio.is_pressed (Recorder._button svc) line0 = true ->
    Gpio.on_pressed (Recorder._button svc) = Some Recorder.on_button_pressed ->
    let b := Gpio.set_last_state (Recorder._button svc) (Some true) in
    let announced :=
      Recorder._status
        (Recorder._status svc "Ready. Latching switch: ON=start, OFF=stop+mp4")
        ("Output directory: " ++ Pathlib.str (Recorder.output_dir svc)) in
    let pressed :=
      Recorder._on_button_pressed env0 (Recorder.set_button announced b, w) in
    let started :=
      (Recorder.set_running
         (Recorder._status (fst pressed) "Button was ON at startup, recording started")
         true,
       snd pressed) in
    Gpio.check_initial_state (Recorder._button svc) line0
    = (b, Some Recorder.on_button_pressed, true)
    /\ Gpio.poll b line0 = (b, None)
    /\ Recorder.startup line0 env0 (svc, w) = Recorder.Normal tt started
    /\ Recorder.button_poll env1 line0 started = Recorder.Normal tt started
    /\ popen_attempts (OS.trace (snd started)) <= popen_attempts (OS.trace w) + 1.
Proof.
  intros svc w line0 env0 env1 Hp Hcb b announced pressed started.
  assert (Hcheck : Gpio.check_initial_state (Recorder._button svc) line0
                   = (b, Some Recorder.on_button_pressed, true)).
  { unfold Gpio.check_initial_state. rewrite Hp. cbn [Gpio.on_pressed Gpio.set_last_state].
    rewrite Hcb. reflexivity. }
  assert (Hpoll : Gpio.poll b line0 = (b, None)).
  { apply poll_same_level. unfold b. rewrite is_pressed_set_last_state, Hp.
    reflexivity. }
  split; [exact Hcheck|]. split; [exact Hpoll|]. split; [|split].
  - unfold Recorder.startup. cbn [Recorder._button Recorder._status Recorder.output_dir].
    rewrite Hcheck. cbn [Recorder.call].
    fold announced. fold pressed.
    destruct pressed as [svc1 w1] eqn:E. reflexivity.
  - unfold Recorder.button_poll, started.
    cbn [Recorder._button Recorder.set_running Recorder._status].
    destruct (pressed_keeps_button env0 (Recorder.set_button announced b, w))
      as (Hb & _ & _).
    fold pressed in Hb. cbn [fst Recorder._button Recorder.set_button] in Hb.
    rewrite Hb, Hpoll. cbn [Recorder.call].
    destruct pressed as [svc1 w1]. cbn [fst snd] in *.
    unfold Recorder.set_button, Recorder.set_running, Recorder._status. cbn.
    rewrite Hb. reflexivity.
  - unfold started. cbn [snd]. apply (pressed_attempts env0).
Qed.

Lemma C6_initial_press_once_witness :
  Recorder.startup true (Examples.good_env "20240101_120000")
    (Examples.service0 (Pathlib.of_str "/media/usb/rec"), Examples.empty_world)
  = Recorder.Normal tt
      (Recorder.set_running
         (Recorder._status
            (fst (Recorder._on_button_pressed (Examples.good_env "20240101_120000")
                    (Recorder.set_button
                       (Recorder._status
                          (Recorder._status
                             (Examples.service0 (Pathlib.of_str "/media/usb/rec"))
                             "Ready. Latching switch: ON=start, OFF=stop+mp4")
                          "Output directory: /media/usb/rec")
                       (Gpio.set_last_state Examples.button0 (Some true)),
                     Examples.empty_world)))
            "Button was ON at startup, recording started")
         true,
       snd (Recorder._on_button_pressed (Examples.good_env "20240101_120000")
              (Recorder.set_button
                 (Recorder._status
                    (Recorder._status
                       (Examples.service0 (Pathlib.of_str "/media/usb/rec"))
                       "Ready. Latching switch: ON=start, OFF=stop+mp4")
                    "Output directory: /media/usb/rec")
                 (Gpio.set_last_state Examples.button0 (Some true)),
               Examples.empty_world))).
Proof.
  exact (proj1 (proj2 (proj2
           (C6_initial_press_once
              (Examples.service0 (Pathlib.of_str "/media/usb/rec"))
              Examples.empty_world true
              (Examples.good_env "20240101_120000")
              (Examples.good_env "20240101_120000")
              eq_refl eq_refl)))).
Defined.

Section RunFacts.

Import OS Recorder.


Lemma shutdowns_keep_proc sgs : forall svc,
  _proc (fold_left (fun svc sg => _handle_shutdown sg svc) sgs svc) = _proc svc.
Proof.
  induction sgs as [|sg sgs IH]; intros svc; simpl; [reflexivity|].
  now rewrite IH.
Qed.













End RunFacts.



(** C10: when the capture process of a session has ended by itself, a
    Released edge only adds the status message "Not recording, ignoring
    release": it calls neither [stop_recording] nor [convert_to_mp4]
    (nothing outside the service changes, the trace is as it was) and the
    stored path stays. The [finally] block of [run] does not call the
    handler at all and leaves the path as well. The next Pressed edge
    replaces the path: by the path of the new session, or by nothing if
    the start fails. *)
Theorem C10_self_exit_skips_finalize :
  forall (svc : Recorder.RecordingService) (w : OS.World) (p : OS.Popen)
         (h : Pathlib.Path) (rc : Z) (env : OS.Env),
    Recorder._proc svc = Some p ->
    OS.poll w p = None ->
    Recorder._current_h264 svc = Some h ->
    let w1 := OS.exit_on_its_own w p rc in
    Recorder.recording svc w1 = false
    /\ OS.trace w1 = OS.trace w
    /\ Recorder._on_button_released env (svc, w1)
       = Recorder.Normal tt (Recorder._status svc "Not recording, ignoring release", w1)
    /\ Recorder._current_h264 (Recorder._status svc "Not recording, ignoring release")
       = Some h
    /\ Recorder.teardown env (svc, w1)
       = Recorder.Normal tt
           (Recorder._status
              (Recorder.set_button svc (Gpio.close (Recorder._button svc)))
              "Service stopped.", w1)
    /\ Recorder._current_h264
         (Recorder._status
            (Recorder.set_button svc (Gpio.close (Recorder._button svc)))
            "Service stopped.") = Some h
    /\ (forall env2,
           let s2 := Recorder._on_button_pressed env2 (svc, w1) in
           Recorder._current_h264 (fst s2)
           = Some (Recorder.output_dir svc </> ("rec_" ++ OS.now env2 ++ ".h264"))
           \/ Recorder._current_h264 (fst s2) = None).
Proof.
  intros svc w p h rc env Hproc Halive Hpath w1.
  assert (Hidle : Recorder.recording svc w1 = false).
  { unfold Recorder.recording. rewrite Hproc.
    pose proof (exit_on_its_own_exits w p rc) as H. fold w1 in H.
    destruct (OS.poll w1 p); [reflexivity|congruence]. }
  refine (conj Hidle (conj eq_refl (conj _ (conj Hpath (conj _ (conj Hpath _)))))).
  - apply released_while_idle. exact Hidle.
  - unfold Recorder.teardown. rewrite Hidle. reflexivity.
  - intros env2 s2. unfold s2, Recorder._on_button_pressed. rewrite Hidle.
    destruct (Camera.start_recording env2 w1 _ Camera.DEFAULT_FPS) as [w2 [q|exc]];
      [left|right]; reflexivity.
Qed.

Lemma C10_self_exit_skips_finalize_witness :
  Recorder._on_button_released (Examples.good_env "20240101_120500")
    (Recorder.mkService (Pathlib.of_str "/media/usb/rec") [] true (Some 0)
       (Some (Pathlib.of_str "/media/usb/rec/rec_20240101_120000.h264"))
       Examples.button0,
     OS.exit_on_its_own (OS.mkWorld [OS.mkProcess None [] true true] []) 0 1)
  = Recorder.Normal tt
      (Recorder._status
         (Recorder.mkService (Pathlib.of_str "/media/usb/rec") [] true (Some 0)
            (Some (Pathlib.of_str "/media/usb/rec/rec_20240101_120000.h264"))
            Examples.button0)
         "Not recording, ignoring release",
       OS.exit_on_its_own (OS.mkWorld [OS.mkProcess None [] true true] []) 0 1).
Proof.
  exact (proj1 (proj2 (proj2
           (C10_self_exit_skips_finalize
              (Recorder.mkService (Pathlib.of_str "/media/usb/rec") [] true (Some 0)
                 (Some (Pathlib.of_str "/media/usb/rec/rec_20240101_120000.h264"))
                 Examples.button0)
              (OS.mkWorld [OS.mkProcess None [] true true] []) 0
              (Pathlib.of_str "/media/usb/rec/rec_20240101_120000.h264") 1
              (Examples.good_env "20240101_120500")
              eq_refl eq_refl eq_refl)))).
Defined.

(** C1, on the code: the service started from the command line does not
    write into <mount>/<recordings-subdir>. With a stick mounted at
    [/media/usb] the capture is told to write
    [/media/usb/slitlamp-recordings/slitlamp_recordings/rec_<stamp>.h264]
    and the conversion writes the [.mp4] next to it: two directories
    separate the mount point from the file. With the override of the
    storage directory set to [/tmp/rec] the directory is
    [/tmp/rec/slitlamp-recordings/slitlamp_recordings]. [record-test]
    writes into [/media/usb/slitlamp-recordings], one directory below the
    mount point. *)
Theorem C1_service_nests_two_directories :
  (let good := Examples.good_env "20240101_120000" in
   exists svc w,
     Cli._cmd_record_service Examples.one_stick good false true 17 false good
       [Examples.quiet_tick true good; Examples.last_tick false good] good
       Examples.empty_world
     = Cli.Ran (Pathlib.of_str "/media/usb/slitlamp-recordings/slitlamp_recordings")
         (inr (Some (Recorder.Normal 0%Z (svc, w))))
     /\ OS.trace w
        = [OS.AMkdir (Pathlib.of_str "/media/usb/slitlamp-recordings/slitlamp_recordings");
           OS.AMkdir (Pathlib.of_str "/media/usb/slitlamp-recordings/slitlamp_recordings");
           OS.APopen
             ["rpicam-vid"; "-t"; "0"; "--codec"; "h264"; "--framerate"; "25";
              "--inline"; "--nopreview"; "-o";
              "/media/usb/slitlamp-recordings/slitlamp_recordings/rec_20240101_120000.h264"]
             0;
           OS.ASendSignal 0 OS.SIGINT;
           OS.AWait 0 (Some Camera.default_timeout);
           OS.ARun
             ["ffmpeg"; "-y"; "-fflags"; "+genpts"; "-r"; "25"; "-i";
              "/media/usb/slitlamp-recordings/slitlamp_recordings/rec_20240101_120000.h264";
              "-c"; "copy";
              "/media/usb/slitlamp-recordings/slitlamp_recordings/rec_20240101_120000.mp4"]
             (OS.Ok 0%Z);
           OS.ARun ["sync"] (OS.Ok 0%Z)])
  /\ (let good := Examples.good_env "20240101_120000" in
      exists r,
        Cli._cmd_record_service (Examples.override_env "/tmp/rec") good false true 17
          false good [Examples.last_tick false good] good Examples.empty_world
        = Cli.Ran (Pathlib.of_str "/tmp/rec/slitlamp-recordings/slitlamp_recordings") r)
  /\ option_map Pathlib.str (Cli.record_test_out Examples.one_stick "20240101_120000")
     = Some "/media/usb/slitlamp-recordings/test_20240101_120000.h264".
Proof.
  split; [|split].
  - eexists. eexists. split; vm_compute; reflexivity.
  - eexists. vm_compute. reflexivity.
  - vm_compute. reflexivity.
Qed.

(* ================================================================== *)
(** * More about the storage resolver *)
(* ================================================================== *)

Section FlattenFacts.

Import Lsblk Storage.

(** Induction over a device tree: a property holds of every node if it
    holds of a node whenever it holds of its children. *)
Fixpoint DeviceNode_tree_ind (P : DeviceNode -> Prop)
         (H : forall n,
             (forall cs c, children n = Some cs -> In c cs -> P c) -> P n)
         (n : DeviceNode) {struct n} : P n.
Proof.
  destruct n as [a b c d e f g h i j cs].
  apply H. cbn [children]. intros l x E Hx.
  destruct cs as [l'|]; [|discriminate]. injection E as <-.
  revert x Hx.
  induction l' as [|y l' IH]; intros x Hx; [destruct Hx|].
  destruct Hx as [<-|Hx]; [apply DeviceNode_tree_ind; exact H|].
  now apply IH.
Defined.

Lemma walk_unfold (n : DeviceNode) :
  walk n = n :: flat_map walk (or_nil (children n)).
Proof. destruct n as [a b c d e f g h i j [l|]]; reflexivity. Qed.

Lemma walk_head (n : DeviceNode) : In n (walk n).
Proof. rewrite walk_unfold. now left. Qed.

(** In the pre-order listing a node comes before each of its children. *)
Lemma walk_parent_first (d : DeviceNode) :
  forall n cs c,
    In n (walk d) -> children n = Some cs -> In c cs ->
    exists l1 l2, walk d = l1 ++ n :: l2 /\ In c l2.
Proof.
  induction d as [d IH] using DeviceNode_tree_ind.
  intros n cs c Hn Hcs Hc. rewrite walk_unfold in Hn |- *.
  destruct Hn as [<-|Hn].
  - exists [], (flat_map walk (or_nil (children d))). split; [reflexivity|].
    rewrite Hcs. cbn [or_nil]. apply in_flat_map. exists c.
    split; [exact Hc|apply walk_head].
  - apply in_flat_map in Hn. destruct Hn as (d' & Hd' & Hn).
    destruct (children d) as [ds|] eqn:Eds; [|destruct Hd'].
    cbn [or_nil] in *.
    destruct (IH ds d' eq_refl Hd' n cs c Hn Hcs Hc) as (l1 & l2 & E & Hin).
    destruct (in_split _ _ Hd') as (a & b & ->).
    rewrite flat_map_app. cbn [flat_map]. rewrite E.
    exists (d :: flat_map walk a ++ l1), (l2 ++ flat_map walk b).
    split.
    + cbn. rewrite <- !app_assoc. reflexivity.
    + apply in_or_app. now left.
Qed.

End FlattenFacts.

(** X1: [_flatten_lsblk] lists every device of the document and, with a
    node, every child of it, however deep; and a node stands before each
    of its children in the list. *)
Theorem X1_flatten_lists_children_after_parent :
  forall (tree : Lsblk.Tree),
    (forall ds d, Lsblk.blockdevices tree = Some ds -> In d ds ->
                  In d (Storage._flatten_lsblk tree))
    /\ (forall n cs c,
           In n (Storage._flatten_lsblk tree) ->
           Lsblk.children n = Some cs -> In c cs ->
           exists l1 l2,
             Storage._flatten_lsblk tree = l1 ++ n :: l2 /\ In c l2).
Proof.
  intros tree. unfold Storage._flatten_lsblk. split.
  - intros ds d E Hd. rewrite E. cbn [Storage.or_nil].
    apply in_flat_map. exists d. split; [exact Hd|apply walk_head].
  - intros n cs c Hn Hcs Hc.
    apply in_flat_map in Hn. destruct Hn as (d & Hd & Hn).
    destruct (walk_parent_first d n cs c Hn Hcs Hc) as (l1 & l2 & E & Hin).
    destruct (in_split _ _ Hd) as (a & b & Eab).
    rewrite Eab, flat_map_app. cbn [flat_map]. rewrite E.
    exists (flat_map Storage.walk a ++ l1), (l2 ++ flat_map Storage.walk b).
    split.
    + rewrite <- !app_assoc. reflexivity.
    + apply in_or_app. now left.
Qed.

Lemma X1_flatten_lists_children_after_parent_witness :
  exists l1 l2,
    Storage._flatten_lsblk
      (Lsblk.mkTree
         (Some [Examples.usb_disk [Examples.usb_partition "/media/usb" "SLITLAMP"]]))
    = l1 ++ Examples.usb_disk [Examples.usb_partition "/media/usb" "SLITLAMP"] :: l2
    /\ In (Examples.usb_partition "/media/usb" "SLITLAMP") l2.
Proof.
  refine (proj2 (X1_flatten_lists_children_after_parent
                   (Lsblk.mkTree
                      (Some [Examples.usb_disk
                               [Examples.usb_partition "/media/usb" "SLITLAMP"]])))
            (Examples.usb_disk [Examples.usb_partition "/media/usb" "SLITLAMP"])
            [Examples.usb_partition "/media/usb" "SLITLAMP"]
            (Examples.usb_partition "/media/usb" "SLITLAMP") _ eq_refl _).
  - simpl. left. reflexivity.
  - simpl. left. reflexivity.
Defined.

Section ResolverFacts.

Import Lsblk Storage.

(** What a node that gives a candidate looks like, and the candidate. *)
Lemma candidate_accepts env dir n t :
  candidate env dir n = Some t ->
  exists m,
    Lsblk.mountpoint n = Some m /\ m <> ""
    /\ (PyStr.lower (PyStr.or_empty (Lsblk.tran n)) = "usb"
        \/ (is_removable (Lsblk.rm n) = true
            /\ PyStr.lower (PyStr.or_empty (Lsblk.tran n)) <> "mmc"))
    /\ Storage.mountpoint t = Pathlib.of_str m </> dir
    /\ _is_writable_dir env (Storage.mountpoint t) = true
    /\ Storage.device t = PyStr.or_else (Lsblk.path n) (Lsblk.kname n)
    /\ Storage.fstype t = Lsblk.fstype n
    /\ Storage.label t = Lsblk.label n.
Proof.
  unfold candidate.
  destruct (PyStr.truthy (Lsblk.mountpoint n)) eqn:Ht; simpl; [|discriminate].
  destruct (truthy_some _ Ht) as (m & Em & Eo & Hne). rewrite Eo.
  destruct (String.eqb (PyStr.lower (PyStr.or_empty (Lsblk.tran n))) "usb") eqn:Eusb;
    simpl.
  - destruct (Pathlib.eqb _ _); [discriminate|].
    destruct (PyStr.startswith _ "/boot"); [discriminate|].
    destruct (_is_writable_dir env _) eqn:Ew; [|discriminate].
    intros H. injection H as <-. exists m. cbn.
    apply String.eqb_eq in Eusb. auto 10.
  - destruct (is_removable (Lsblk.rm n)) eqn:Erm; simpl; [|discriminate].
    destruct (String.eqb (PyStr.lower (PyStr.or_empty (Lsblk.tran n))) "mmc") eqn:Emmc;
      simpl; [discriminate|].
    destruct (Pathlib.eqb _ _); [discriminate|].
    destruct (PyStr.startswith _ "/boot"); [discriminate|].
    destruct (_is_writable_dir env _) eqn:Ew; [|discriminate].
    intros H. injection H as <-. exists m. cbn.
    apply String.eqb_neq in Emmc. auto 10.
Qed.

Lemma score_ge_refl (a : Score) : score_ge a a.
Proof. unfold score_ge. rewrite score_compare_refl. discriminate. Qed.

(** Whatever branch it takes, the resolver returns a sorted list. *)
Lemma find_usb_mount_targets_sorted env dir prefixes :
  sorted_desc (score env prefixes) (find_usb_mount_targets env dir prefixes).
Proof.
  unfold find_usb_mount_targets.
  destruct (PyStr.truthy (SLITCAM_STORAGE_DIR env)).
  - repeat constructor.
  - destruct (_run_lsblk_json env); [constructor|apply sort_desc_sorted].
Qed.

Lemma sorted_desc_split {A : Type} (key : A -> Score) (l1 l2 : list A) (a : A) :
  sorted_desc key (l1 ++ a :: l2) ->
  Forall (fun b => score_ge (key a) (key b)) l2.
Proof.
  unfold sorted_desc. induction l1 as [|x l1 IH]; simpl; intros H.
  - now inversion H.
  - inversion H; auto.
Qed.

Lemma score_ge_flag (a b : Score) :
  score_ge a b -> fst (fst b) <= fst (fst a).
Proof.
  unfold score_ge. destruct a as [[p1 l1] m1], b as [[p2 l2] m2]. simpl.
  destruct (Nat.compare_spec p1 p2) as [E|L|G]; try lia. intros Hn. now elim Hn.
Qed.

(** With one score per element, a sorted list is determined by what it
    holds. *)
Lemma sorted_desc_unique {A : Type} (key : A -> Score) (l1 : list A) :
  forall l2,
    NoDup (map key l1) -> Permutation l1 l2 ->
    sorted_desc key l1 -> sorted_desc key l2 -> l1 = l2.
Proof.
  induction l1 as [|a l1 IH]; intros l2 Hnd Hp S1 S2.
  - apply Permutation_nil in Hp. now subst.
  - destruct l2 as [|b l2].
    { apply Permutation_sym, Permutation_nil in Hp. discriminate. }
    assert (Hab : a = b).
    { assert (Ha : In a (b :: l2)) by (eapply Permutation_in; [exact Hp|now left]).
      assert (Hb : In b (a :: l1))
        by (eapply Permutation_in; [apply Permutation_sym; exact Hp|now left]).
      destruct Ha as [->|Ha]; [reflexivity|].
      destruct Hb as [->|Hb]; [reflexivity|].
      inversion S1 as [|? ? _ F1]; subst. inversion S2 as [|? ? _ F2]; subst.
      rewrite Forall_forall in F1, F2.
      pose proof (F1 b Hb) as G1. pose proof (F2 a Ha) as G2.
      unfold score_ge in G1, G2.
      assert (Ek : key a = key b).
      { destruct (score_compare (key a) (key b)) eqn:E.
        - now apply score_compare_eq.
        - contradiction.
        - rewrite score_compare_antisym, E in G2. now elim G2. }
      inversion Hnd as [|? ? Hnin _]; subst.
      elim Hnin. rewrite Ek. now apply in_map. }
    subst b. f_equal. apply IH.
    + now inversion Hnd.
    + eapply Permutation_cons_inv; exact Hp.
    + now inversion S1.
    + now inversion S2.
Qed.

End ResolverFacts.

(** X2: every target the resolver returns after asking [lsblk] was built
    from a listed node with a non-empty mount point whose transport is
    usb, or which is flagged removable and whose transport is not mmc
    (transport compared in lower case); its directory is the mount point
    followed by the name of the recordings directory and has passed the
    writability probe; device, file system type and label are those of
    the node, the device being the path or else the kernel name. *)
Theorem X2_targets_are_probed_removable_mounts :
  forall (env : Storage.Env) (dir : string) (prefixes : list string)
         (tree : Lsblk.Tree) (t : Storage.UsbTarget),
    PyStr.truthy (Storage.SLITCAM_STORAGE_DIR env) = false ->
    Storage._run_lsblk_json env = Lsblk.Returns tree ->
    In t (Storage.find_usb_mount_targets env dir prefixes) ->
    exists n m,
      In n (Storage._flatten_lsblk tree)
      /\ Lsblk.mountpoint n = Some m /\ m <> ""
      /\ (PyStr.lower (PyStr.or_empty (Lsblk.tran n)) = "usb"
          \/ (Storage.is_removable (Lsblk.rm n) = true
              /\ PyStr.lower (PyStr.or_empty (Lsblk.tran n)) <> "mmc"))
      /\ Storage.mountpoint t = Pathlib.of_str m </> dir
      /\ Storage._is_writable_dir env (Storage.mountpoint t) = true
      /\ Storage.device t = PyStr.or_else (Lsblk.path n) (Lsblk.kname n)
      /\ Storage.fstype t = Lsblk.fstype n
      /\ Storage.label t = Lsblk.label n.
Proof.
  intros env dir prefixes tree t Hov Hls Hin.
  rewrite (find_usb_mount_targets_lsblk _ _ _ _ Hov Hls) in Hin.
  apply (Permutation_in _ (Permutation_sym (sort_desc_perm _ _))) in Hin.
  apply candidates_of_In in Hin. destruct Hin as (n & Hn & Hc).
  destruct (candidate_accepts _ _ _ _ Hc) as (m & H).
  exists n, m. split; [exact Hn|exact H].
Qed.

Lemma X2_targets_are_probed_removable_mounts_witness :
  exists n m,
    In n (Storage._flatten_lsblk
            (Lsblk.mkTree
               (Some [Examples.usb_disk [Examples.usb_partition "/media/usb" "SLITLAMP"]])))
    /\ Lsblk.mountpoint n = Some m /\ m <> ""
    /\ (PyStr.lower (PyStr.or_empty (Lsblk.tran n)) = "usb"
        \/ (Storage.is_removable (Lsblk.rm n) = true
            /\ PyStr.lower (PyStr.or_empty (Lsblk.tran n)) <> "mmc"))
    /\ Pathlib.of_str "/media/usb/slitlamp-recordings"
       = Pathlib.of_str m </> Storage.default_recordings_dir_name
    /\ true = true
    /\ Some "/dev/sda1" = PyStr.or_else (Lsblk.path n) (Lsblk.kname n)
    /\ Some "vfat" = Lsblk.fstype n
    /\ Some "SLITLAMP" = Lsblk.label n.
Proof.
  exact (X2_targets_are_probed_removable_mounts Examples.one_stick
           Storage.default_recordings_dir_name Storage.default_prefer_label_prefixes
           (Lsblk.mkTree
              (Some [Examples.usb_disk [Examples.usb_partition "/media/usb" "SLITLAMP"]]))
           (Storage.mkUsbTarget (Pathlib.of_str "/media/usb/slitlamp-recordings")
              (Some "/dev/sda1") (Some "vfat") (Some "SLITLAMP"))
           eq_refl eq_refl (or_introl eq_refl)).
Defined.

(** X3: [choose_usb_target] returns a target of the resolver's list
    whose score no other target of the list exceeds, and it returns
    nothing only when the list is empty. *)
Theorem X3_choose_returns_a_best_target :
  forall (env : Storage.Env),
    let out := Storage.find_usb_mount_targets env
                 Storage.default_recordings_dir_name
                 Storage.default_prefer_label_prefixes in
    match Storage.choose_usb_target env with
    | Some t =>
        In t out
        /\ forall t', In t' out ->
                      score_ge (Storage.score env Storage.default_prefer_label_prefixes t)
                               (Storage.score env Storage.default_prefer_label_prefixes t')
    | None => out = []
    end.
Proof.
  intros env out.
  pose proof (find_usb_mount_targets_sorted env Storage.default_recordings_dir_name
                Storage.default_prefer_label_prefixes) as Hs.
  fold out in Hs. unfold Storage.choose_usb_target. fold out.
  destruct out as [|t l]; [reflexivity|].
  split; [now left|].
  intros t' [<-|Hin]; [apply score_ge_refl|].
  inversion Hs as [|? ? _ F]; subst. rewrite Forall_forall in F. now apply F.
Qed.

(** X4: in the list the resolver returns no target without a preferred
    label stands before one with a preferred label. *)
Theorem X4_preferred_labels_first :
  forall (env : Storage.Env) (dir : string) (prefixes : list string)
         (l1 l2 : list Storage.UsbTarget) (a b : Storage.UsbTarget),
    Storage.find_usb_mount_targets env dir prefixes = l1 ++ a :: l2 ->
    In b l2 ->
    fst (fst (Storage.score env prefixes b)) = 1 ->
    fst (fst (Storage.score env prefixes a)) = 1.
Proof.
  intros env dir prefixes l1 l2 a b E Hb Hflag.
  pose proof (find_usb_mount_targets_sorted env dir prefixes) as Hs.
  rewrite E in Hs. apply sorted_desc_split in Hs.
  rewrite Forall_forall in Hs. apply Hs in Hb. apply score_ge_flag in Hb.
  assert (fst (fst (Storage.score env prefixes a)) <= 1).
  { unfold Storage.score. cbn. destruct (existsb _ prefixes); lia. }
  lia.
Qed.

Lemma X4_preferred_labels_first_witness :
  fst (fst (Storage.score Examples.three_sticks ["SLITLAMP"]
              (Storage.mkUsbTarget (Pathlib.of_str "/media/b/slitlamp-recordings")
                 (Some "/dev/sda1") (Some "vfat") (Some "SLITLAMP_B")))) = 1.
Proof.
  apply (X4_preferred_labels_first Examples.three_sticks
           Storage.default_recordings_dir_name ["SLITLAMP"]
           []
           [Storage.mkUsbTarget (Pathlib.of_str "/media/c/slitlamp-recordings")
              (Some "/dev/sda1") (Some "vfat") (Some "SLITLAMP_A");
            Storage.mkUsbTarget (Pathlib.of_str "/media/a/slitlamp-recordings")
              (Some "/dev/sda1") (Some "vfat") (Some "OTHER")]
           (Storage.mkUsbTarget (Pathlib.of_str "/media/b/slitlamp-recordings")
              (Some "/dev/sda1") (Some "vfat") (Some "SLITLAMP_B"))
           (Storage.mkUsbTarget (Pathlib.of_str "/media/c/slitlamp-recordings")
              (Some "/dev/sda1") (Some "vfat") (Some "SLITLAMP_A"))).
  - vm_compute. reflexivity.
  - simpl. left. reflexivity.
  - vm_compute. reflexivity.
Defined.

(** X5: when no two candidates have the same score, the order of the
    sorted list does not depend on the order in which the candidates
    were found: two listings of the same candidates sort to the same
    list. *)
Theorem X5_order_independent_of_listing :
  forall (env : Storage.Env) (prefixes : list string) (l1 l2 : list Storage.UsbTarget),
    Permutation l1 l2 ->
    NoDup (map (Storage.score env prefixes) l1) ->
    Storage.sort_desc (Storage.score env prefixes) l1
    = Storage.sort_desc (Storage.score env prefixes) l2.
Proof.
  intros env prefixes l1 l2 Hp Hnd.
  apply (sorted_desc_unique (Storage.score env prefixes)).
  - eapply Permutation_NoDup; [|exact Hnd].
    apply Permutation_map. apply sort_desc_perm.
  - rewrite <- (sort_desc_perm (Storage.score env prefixes) l1).
    rewrite <- (sort_desc_perm (Storage.score env prefixes) l2). exact Hp.
  - apply sort_desc_sorted.
  - apply sort_desc_sorted.
Qed.

Lemma X5_order_independent_of_listing_witness :
  Storage.sort_desc (Storage.score Examples.three_sticks ["SLITLAMP"])
    [Storage.mkUsbTarget (Pathlib.of_str "/media/a/r") None None (Some "OTHER");
     Storage.mkUsbTarget (Pathlib.of_str "/media/b/r") None None (Some "SLITLAMP_B")]
  = Storage.sort_desc (Storage.score Examples.three_sticks ["SLITLAMP"])
      [Storage.mkUsbTarget (Pathlib.of_str "/media/b/r") None None (Some "SLITLAMP_B");
       Storage.mkUsbTarget (Pathlib.of_str "/media/a/r") None None (Some "OTHER")].
Proof.
  apply (X5_order_independent_of_listing Examples.three_sticks ["SLITLAMP"]).
  - apply perm_swap.
  - vm_compute. repeat constructor; simpl; intuition discriminate.
Defined.

(* ================================================================== *)
(** * More about the button *)
(* ================================================================== *)

(** Polling a button once for each level of a list; the callables to be
    called, in order. *)
Fixpoint polls {cb : Type} (b : Gpio.LatchingButton cb) (lines : list bool)
  : Gpio.LatchingButton cb * list cb :=
  match lines with
  | [] => (b, [])
  | line :: lines' =>
      let '(b1, m) := Gpio.poll b line in
      let '(b2, cs) := polls b1 lines' in
      (b2, match m with Some c => c :: cs | None => cs end)
  end.

(** [n] levels, alternating, beginning with [first]. *)
Fixpoint alternating (first : bool) (n : nat) : list bool :=
  match n with
  | 0 => []
  | S n' => first :: alternating (negb first) n'
  end.

Section ButtonFacts.

Context {cb : Type}.

Lemma set_last_state_same (b : Gpio.LatchingButton cb) :
  Gpio.set_last_state b (Gpio._last_state b) = b.
Proof. destruct b; reflexivity. Qed.

(** One poll of a button that remembers a level. *)
Lemma poll_step (b : Gpio.LatchingButton cb) (line l0 : bool) :
  Gpio._last_state b = Some l0 ->
  Gpio.poll b line
  = (Gpio.set_last_state b (Some (Gpio.is_pressed b line)),
     if Bool.eqb (Gpio.is_pressed b line) l0 then None
     else if Gpio.is_pressed b line then Gpio.on_pressed b
          else Gpio.on_released b).
Proof.
  intros H. unfold Gpio.poll. rewrite H.
  destruct (Bool.eqb (Gpio.is_pressed b line) l0) eqn:E; cbn [negb].
  - apply Bool.eqb_prop in E. rewrite E, <- H, set_last_state_same. reflexivity.
  - destruct (Gpio.is_pressed b line); reflexivity.
Qed.

End ButtonFacts.

(** X6: a button that remembers a level and is polled any number of
    times calls its two callables in strict alternation, beginning with
    the one for the edge away from the remembered level: never Pressed
    twice without a Released in between. There are at most as many calls
    as polls, and afterwards the button remembers the level it read
    last. *)
Theorem X6_callbacks_alternate :
  forall (cb : Type) (lines : list bool) (b : Gpio.LatchingButton cb)
         (P R : cb) (l0 : bool),
    Gpio.on_pressed b = Some P ->
    Gpio.on_released b = Some R ->
    Gpio._last_state b = Some l0 ->
    exists n,
      snd (polls b lines)
      = map (fun k : bool => if k then P else R) (alternating (negb l0) n)
      /\ n <= List.length lines
      /\ Gpio._last_state (fst (polls b lines))
         = Some (last (map (Gpio.is_pressed b) lines) l0).
Proof.
  intros cb lines. induction lines as [|line lines IH]; intros b P R l0 HP HR HL.
  - exists 0. cbn. auto.
  - cbn [polls]. rewrite (poll_step b line l0 HL).
    set (cur := Gpio.is_pressed b line).
    set (b1 := Gpio.set_last_state b (Some cur)).
    destruct (IH b1 P R cur HP HR eq_refl) as (n & Hcs & Hn & Hlast).
    assert (Hmap : map (Gpio.is_pressed b1) lines = map (Gpio.is_pressed b) lines)
      by reflexivity.
    assert (Hl : Gpio._last_state (fst (polls b1 lines))
                 = Some (last (map (Gpio.is_pressed b) (line :: lines)) l0)).
    { rewrite Hlast, Hmap. cbn [map]. fold cur.
      destruct (map (Gpio.is_pressed b) lines) as [|x xs] eqn:E; [reflexivity|].
      cbn [last]. clear. revert x. induction xs as [|y ys IHy]; intros x.
      - reflexivity.
      - cbn [last] in *. apply IHy. }
    destruct (polls b1 lines) as [b2 cs]. cbn [fst snd] in *.
    destruct (Bool.eqb cur l0) eqn:E.
    + apply Bool.eqb_prop in E. exists n. rewrite <- E in Hl |- *.
      split; [exact Hcs|]. split; [cbn; lia|exact Hl].
    + apply Bool.eqb_false_iff in E.
      assert (Ecur : cur = negb l0).
      { destruct l0; [apply Bool.not_true_is_false in E
                     |apply Bool.not_false_is_true in E]; exact E. }
      exists (S n). split; [|split; [cbn; lia|exact Hl]].
      cbn [alternating map]. rewrite <- Ecur, <- Hcs.
      destruct cur; [rewrite HP|rewrite HR]; reflexivity.
Qed.

Lemma X6_callbacks_alternate_witness :
  exists n,
    snd (polls (Gpio.set_last_state Examples.button0 (Some false))
           [true; true; false; true])
    = map (fun k : bool =>
             if k then Recorder.on_button_pressed else Recorder.on_button_released)
        (alternating true n)
    /\ n <= 4
    /\ Gpio._last_state
         (fst (polls (Gpio.set_last_state Examples.button0 (Some false))
                 [true; true; false; true]))
       = Some true.
Proof.
  exact (X6_callbacks_alternate Recorder.Method [true; true; false; true]
           (Gpio.set_last_state Examples.button0 (Some false))
           Recorder.on_button_pressed Recorder.on_button_released false
           eq_refl eq_refl eq_refl).
Defined.

(* ================================================================== *)
(** * The path of a session *)
(* ================================================================== *)

(** No character of the string is a slash. *)
Fixpoint no_slash (s : string) : bool :=
  match s with
  | EmptyString => true
  | String c s' => negb (Ascii.eqb c "/") && no_slash s'
  end.

Section PathFacts.

Lemma string_length_app (a b : string) :
  String.length (a ++ b) = String.length a + String.length b.
Proof. induction a as [|c a IH]; simpl; [reflexivity|]. now rewrite IH. Qed.

Lemma substring_prefix (a b : string) :
  String.substring 0 (String.length a) (a ++ b) = a.
Proof. induction a as [|c a IH]; simpl; [now destruct b|]. now rewrite IH. Qed.

Lemma substring_all (b : string) : String.substring 0 (String.length b) b = b.
Proof. induction b as [|c b IH]; simpl; [reflexivity|]. now rewrite IH. Qed.

Lemma substring_suffix (a b : string) :
  String.substring (String.length a) (String.length b) (a ++ b) = b.
Proof. induction a as [|c a IH]; simpl; [apply substring_all|exact IH]. Qed.

Lemma no_slash_app (a b : string) :
  no_slash (a ++ b) = no_slash a && no_slash b.
Proof.
  induction a as [|c a IH]; simpl; [reflexivity|].
  now rewrite IH, andb_assoc.
Qed.

Lemma split_slash_aux_no_slash (s : string) :
  forall cur, no_slash s = true ->
              PyStr.split_slash_aux s cur
              = [(string_of_list_ascii (rev cur) ++ s)%string].
Proof.
  induction s as [|c s IH]; intros cur H; simpl in *.
  - now rewrite string_app_nil.
  - apply andb_true_iff in H. destruct H as [Hc Hs].
    apply negb_true_iff in Hc. rewrite Hc, (IH _ Hs). simpl.
    now rewrite string_of_list_ascii_app, string_app_assoc.
Qed.

Lemma rfind_dot_h264 (a : string) :
  forall i last, PyStr.rfind_dot_aux (a ++ ".h264") i last = Some (i + String.length a).
Proof.
  induction a as [|c a IH]; intros i last; simpl.
  - now rewrite Nat.add_0_r.
  - rewrite IH. f_equal. lia.
Qed.




(** A file name without slash that begins with [rec_] is one component. *)
Lemma rec_name_one_part (rest : string) :
  no_slash rest = true ->
  Pathlib.of_str ("rec_" ++ rest) = Pathlib.mkPath "" [("rec_" ++ rest)%string].
Proof.
  intros H. unfold Pathlib.of_str, PyStr.split_slash. simpl.
  rewrite (split_slash_aux_no_slash rest _ H). reflexivity.
Qed.

Lemma truediv_rec_name (od : Pathlib.Path) (rest : string) :
  no_slash rest = true ->
  od </> ("rec_" ++ rest)
  = Pathlib.mkPath (Pathlib.root od) (Pathlib.parts od ++ [("rec_" ++ rest)%string]).
Proof.
  intros H. unfold Pathlib.truediv. rewrite (rec_name_one_part rest H). reflexivity.
Qed.

End PathFacts.

(** X7: for a time stamp without a slash the session file
    [rec_<stamp>.h264] lies directly in the output directory, and the
    path [with_suffix(".mp4")] gives for it is [rec_<stamp>.mp4] in the
    same directory: same stem, only the suffix replaced, also when the
    stamp itself contains dots. *)
Theorem X7_mp4_beside_h264 :
  forall (od : Pathlib.Path) (ts : string),
    no_slash ts = true ->
    let h264 := od </> ("rec_" ++ ts ++ ".h264") in
    Pathlib.parent h264 = od
    /\ Pathlib.name h264 = ("rec_" ++ ts ++ ".h264")%string
    /\ Pathlib.suffix h264 = ".h264"
    /\ Pathlib.with_suffix h264 ".mp4" = Some (od </> ("rec_" ++ ts ++ ".mp4")).
Proof.
  intros od ts Hts h264.
  assert (H1 : no_slash (ts ++ ".h264") = true)
    by (rewrite no_slash_app, Hts; reflexivity).
  assert (H2 : no_slash (ts ++ ".mp4") = true)
    by (rewrite no_slash_app, Hts; reflexivity).
  assert (Eh : h264 = Pathlib.mkPath (Pathlib.root od)
                        (Pathlib.parts od ++ [("rec_" ++ ts ++ ".h264")%string]))
    by (apply (truediv_rec_name od (ts ++ ".h264") H1)).
  assert (Em : od </> ("rec_" ++ ts ++ ".mp4")
               = Pathlib.mkPath (Pathlib.root od)
                   (Pathlib.parts od ++ [("rec_" ++ ts ++ ".mp4")%string]))
    by (apply (truediv_rec_name od (ts ++ ".mp4") H2)).
  assert (En : Pathlib.name h264 = ("rec_" ++ ts ++ ".h264")%string).
  { rewrite Eh. unfold Pathlib.name. cbn [Pathlib.parts]. apply last_last. }
  assert (Ea : ("rec_" ++ ts ++ ".h264")%string = (("rec_" ++ ts) ++ ".h264")%string)
    by (now rewrite string_app_assoc).
  assert (HA : 1 <= String.length ("rec_" ++ ts)) by (cbn; lia).
  remember ("rec_" ++ ts)%string as A eqn:EA.
  assert (Es : Pathlib.suffix h264 = ".h264").
  { unfold Pathlib.suffix. rewrite En, Ea. unfold PyStr.rfind_dot.
    rewrite rfind_dot_h264, (string_length_app A ".h264"). cbn [Nat.add].
    replace (String.length A + String.length ".h264" - String.length A)
      with (String.length ".h264") by lia.
    rewrite substring_suffix.
    assert (C : ((0 <? String.length A)%nat
                 && (String.length A <? String.length A + String.length ".h264" - 1)%nat)%bool
                = true).
    { apply andb_true_iff. split; apply Nat.ltb_lt; cbn; lia. }
    rewrite C. reflexivity. }
  split; [|split; [exact En|split; [exact Es|]]].
  - rewrite Eh. unfold Pathlib.parent. cbn [Pathlib.root Pathlib.parts].
    rewrite removelast_last. now destruct od.
  - unfold Pathlib.with_suffix. rewrite Es, En, Em.
    destruct (String.eqb ("rec_" ++ ts ++ ".h264") "") eqn:E0;
      [apply String.eqb_eq in E0; discriminate|].
    rewrite Eh. cbn [Pathlib.root Pathlib.parts]. rewrite removelast_last.
    rewrite Ea, (string_length_app A ".h264").
    replace (String.length A + String.length ".h264" - String.length ".h264")
      with (String.length A) by lia.
    rewrite substring_prefix, EA, string_app_assoc. reflexivity.
Qed.

Lemma X7_mp4_beside_h264_witness :
  Pathlib.with_suffix
    (Pathlib.of_str "/media/usb/rec" </> ("rec_" ++ "20240101_120000" ++ ".h264")) ".mp4"
  = Some (Pathlib.of_str "/media/usb/rec" </> ("rec_" ++ "20240101_120000" ++ ".mp4")).
Proof.
  exact (proj2 (proj2 (proj2
           (X7_mp4_beside_h264 (Pathlib.of_str "/media/usb/rec") "20240101_120000"
              eq_refl)))).
Defined.

(* ================================================================== *)
(** * More about the recording service *)
(* ================================================================== *)




Section HandlerFacts.

Import OS Recorder.







End HandlerFacts.





Section ServiceRunFacts.

Import OS Recorder.








End ServiceRunFacts.



Section FakeFacts.

Import OS Recorder.

(** The state of a service that runs without hardware and has never
    recorded: the button is the one the constructor makes in fake mode,
    no handle is held, and the trace is [tr]. *)
Definition fake_idle (tr : list Action) (s : Sys) : Prop :=
  Gpio._fake_mode (_button (fst s)) = true
  /\ Gpio.on_pressed (_button (fst s)) = Some on_button_pressed
  /\ Gpio.on_released (_button (fst s)) = Some on_button_released
  /\ _proc (fst s) = None
  /\ trace (snd s) = tr.

Lemma fake_poll (b : Gpio.LatchingButton Method) (line : bool) :
  Gpio._fake_mode b = true ->
  Gpio.on_released b = Some on_button_released ->
  exists b' m,
    Gpio.poll b line = (b', m)
    /\ (m = None \/ m = Some on_button_released)
    /\ Gpio._fake_mode b' = true
    /\ Gpio.on_pressed b' = Gpio.on_pressed b
    /\ Gpio.on_released b' = Gpio.on_released b.
Proof.
  intros Hf Hr. unfold Gpio.poll, Gpio.is_pressed. rewrite Hf.
  destruct (Gpio._last_state b) as [[|]|]; cbn.
  - eexists; eexists. split; [reflexivity|]. rewrite Hr. auto.
  - eexists; eexists. split; [reflexivity|]. auto.
  - eexists; eexists. split; [reflexivity|]. auto.
Qed.

Lemma fake_button_poll tr env line s :
  fake_idle tr s ->
  exists s', button_poll env line s = Normal tt s' /\ fake_idle tr s'.
Proof.
  destruct s as [svc w]. intros (Hf & Hp & Hr & Hproc & Htr). cbn [fst snd] in *.
  unfold button_poll.
  destruct (fake_poll (_button svc) line Hf Hr) as (b' & m & -> & Hm & Hf' & Hp' & Hr').
  destruct Hm as [->| ->]; cbn [call].
  - eexists. split; [reflexivity|]. unfold fake_idle. cbn. intuition congruence.
  - rewrite released_while_idle
      by (unfold recording; cbn [_proc set_button]; now rewrite Hproc).
    eexists. split; [reflexivity|]. unfold fake_idle. cbn. intuition congruence.
Qed.

Lemma deaths_keep_trace ds : forall w,
  trace (fold_left (fun w d => exit_on_its_own w (fst d) (snd d)) ds w) = trace w.
Proof.
  induction ds as [|d ds IH]; intros w; simpl; [reflexivity|]. now rewrite IH.
Qed.

Lemma shutdowns_keep_button sgs : forall svc,
  _button (fold_left (fun svc sg => _handle_shutdown sg svc) sgs svc) = _button svc.
Proof.
  induction sgs as [|sg sgs IH]; intros svc; simpl; [reflexivity|]. now rewrite IH.
Qed.

Lemma fake_sleep tr t s : fake_idle tr s -> fake_idle tr (sleep t s).
Proof.
  destruct s as [svc w]. intros (Hf & Hp & Hr & Hproc & Htr). cbn [fst snd] in *.
  unfold sleep, fake_idle. cbn [fst snd].
  rewrite shutdowns_keep_button, shutdowns_keep_proc, deaths_keep_trace. auto.
Qed.

Lemma fake_loop tr ticks : forall s r,
  fake_idle tr s -> loop ticks s = Some r ->
  exists s', r = Normal tt s' /\ fake_idle tr s'.
Proof.
  induction ticks as [|t ticks IH]; intros s r HF; simpl.
  - destruct (negb (_running (fst s))); [|discriminate].
    intros H. injection H as <-. eauto.
  - destruct (negb (_running (fst s))).
    + intros H. injection H as <-. eauto.
    + destruct (fake_button_poll tr (env t) (line t) s HF) as (s1 & -> & HF1).
      apply IH. now apply fake_sleep.
Qed.

End FakeFacts.

(** X11: with [SLITCAM_FAKE_GPIO=1] the service never records. The
    button always reads "not pressed", so however long the service runs
    and whatever the level of the line, [run] starts no capture process
    and calls nothing outside the program after the constructor has made
    the output directory; when it returns, it returns 0. *)
Theorem X11_fake_gpio_never_records :
  forall (init_env : OS.Env) (gpiozero_ok : bool) (output_dir : Pathlib.Path)
         (gpio_pin : Z) (line0 : bool) (env0 : OS.Env)
         (ticks : list Recorder.Tick) (fin : OS.Env) (w : OS.World)
         (r : Recorder.Res Z),
    OS.mkdir init_env output_dir = None ->
    Recorder.run_service init_env true gpiozero_ok output_dir gpio_pin
      line0 env0 ticks fin w = inr (Some r) ->
    exists svc' w',
      r = Recorder.Normal 0%Z (svc', w')
      /\ OS.trace w' = OS.trace w ++ [OS.AMkdir output_dir]
      /\ Recorder._proc svc' = None.
Proof.
  intros init_env ok od pin line0 env0 ticks fin w r Hmk.
  unfold Recorder.run_service, Recorder.init. rewrite Hmk. cbn [Gpio.init].
  set (svc0 := Recorder.mkService od [] false None None _).
  set (w0 := OS.log w (OS.AMkdir od)).
  set (tr := OS.trace w ++ [OS.AMkdir od]).
  assert (HF : fake_idle tr (svc0, w0)) by (unfold fake_idle; cbn; auto).
  intros H. injection H as H. revert H. unfold Recorder.run, Recorder.startup.
  cbn [Recorder._button Recorder._status Recorder.output_dir svc0
         Gpio.check_initial_state Gpio.is_pressed Gpio._fake_mode Recorder.call].
  match goal with
  | |- match Recorder.loop ticks ?s with _ => _ end = _ -> _ =>
      assert (HF1 : fake_idle tr s) by (unfold fake_idle; cbn; auto);
        destruct (Recorder.loop ticks s) as [body|] eqn:Hbody; [|discriminate];
        destruct (fake_loop tr ticks s body HF1 Hbody) as ([svc2 w2] & -> & HF2)
  end.
  destruct HF2 as (_ & _ & _ & Hp2 & Ht2). cbn [fst snd] in *.
  cbn [Recorder.try_finally]. unfold Recorder.teardown.
  assert (Hr : Recorder.recording svc2 w2 = false)
    by (unfold Recorder.recording; now rewrite Hp2).
  rewrite Hr. intros H. injection H as <-.
  eexists; eexists. split; [reflexivity|]. cbn. auto.
Qed.

Lemma X11_fake_gpio_never_records_witness :
  exists svc' w',
    Recorder.Normal 0%Z
      (Recorder.mkService (Pathlib.of_str "/tmp/rec")
         ["Ready. Latching switch: ON=start, OFF=stop+mp4";
          "Output directory: /tmp/rec";
          (Recorder.newline ++ "Received SIGTERM, shutting down...")%string;
          "Service stopped."]
         false None None
         (Gpio.mkLatchingButton 17 true (5 # 100) (Some Recorder.on_button_pressed)
            (Some Recorder.on_button_released) true false (Some false)),
       OS.mkWorld [] [OS.AMkdir (Pathlib.of_str "/tmp/rec")])
    = Recorder.Normal 0%Z (svc', w')
    /\ OS.trace w' = OS.trace Examples.empty_world ++ [OS.AMkdir (Pathlib.of_str "/tmp/rec")]
    /\ Recorder._proc svc' = None.
Proof.
  exact (X11_fake_gpio_never_records (Examples.good_env "20240101_120000") false
           (Pathlib.of_str "/tmp/rec") 17 true (Examples.good_env "20240101_120000")
           [Examples.last_tick true (Examples.good_env "20240101_120001")]
           (Examples.good_env "20240101_120002") Examples.empty_world
           _ eq_refl eq_refl).
Defined.

(* ================================================================== *)
(** * What the service does outside itself *)
(* ================================================================== *)

(** The calls [stop_recording proc timeout] can make, tier by tier. *)
Definition stop_tiers (proc : OS.Popen) (timeout : Q) : list (list OS.Action) :=
  [ [];
    [OS.ASendSignal proc OS.SIGINT; OS.AWait proc (Some timeout)];
    [OS.ASendSignal proc OS.SIGINT; OS.AWait proc (Some timeout);
     OS.ASendSignal proc OS.SIGTERM; OS.AWait proc (Some timeout)];
    [OS.ASendSignal proc OS.SIGINT; OS.AWait proc (Some timeout);
     OS.ASendSignal proc OS.SIGTERM; OS.AWait proc (Some timeout);
     OS.ASendSignal proc OS.SIGKILL; OS.AWait proc None] ].

(** The action does not delete a file. *)
Definition keeps_files (a : OS.Action) : bool :=
  match a with
  | OS.AUnlink _ => false
  | _ => true
  end.

(** The Pressed edges of a sequence of events. *)
Fixpoint pressed_count (events : list Event) : nat :=
  match events with
  | [] => 0
  | Pressed _ :: events' => S (pressed_count events')
  | _ :: events' => pressed_count events'
  end.

(** From [w] to [w'] the trace has grown by actions that delete nothing
    and hold at most [n] calls of [Popen]. *)
Definition grows_by (n : nat) (w w' : OS.World) : Prop :=
  exists extra,
    OS.trace w' = OS.trace w ++ extra
    /\ forallb keeps_files extra = true
    /\ popen_attempts extra <= n.

Section TraceFacts.

Import OS Recorder.

Lemma stop_recording_trace (w : World) (p : Popen) (t : Q) w' r :
  Camera.stop_recording w (Some p) t = Some (w', r) ->
  exists extra, In extra (stop_tiers p t) /\ trace w' = trace w ++ extra.
Proof.
  unfold Camera.stop_recording, stop_tiers.
  destruct (poll w p).
  { intros H. injection H as <- _. exists []. rewrite app_nil_r. cbn. auto. }
  pose proof (trace_wait (send_signal w p SIGINT) p (Some t)) as T1.
  rewrite trace_send_signal, <- app_assoc in T1. cbn [app] in T1.
  destruct (wait (send_signal w p SIGINT) p (Some t)) as [w2 r1]. cbn [fst] in T1.
  destruct r1; [intros H; injection H as <- _; eexists; split; [|exact T1]; cbn; auto
               | |discriminate].
  pose proof (trace_wait (send_signal w2 p SIGTERM) p (Some t)) as T2.
  rewrite trace_send_signal, T1, <- !app_assoc in T2. cbn [app] in T2.
  destruct (wait (send_signal w2 p SIGTERM) p (Some t)) as [w4 r2]. cbn [fst] in T2.
  destruct r2; [intros H; injection H as <- _; eexists; split; [|exact T2]; cbn; auto
               | |discriminate].
  pose proof (trace_wait (send_signal w4 p SIGKILL) p None) as T3.
  rewrite trace_send_signal, T2, <- !app_assoc in T3. cbn [app] in T3.
  destruct (wait (send_signal w4 p SIGKILL) p None) as [w6 r3]. cbn [fst] in T3.
  destruct r3; [| |discriminate];
    intros H; injection H as <- _; eexists; (split; [|exact T3]); cbn; auto.
Qed.

Lemma grows_by_refl n w : grows_by n w w.
Proof. exists []. rewrite app_nil_r. cbn. repeat split. lia. Qed.

Lemma grows_by_trans n m w1 w2 w3 :
  grows_by n w1 w2 -> grows_by m w2 w3 -> grows_by (n + m) w1 w3.
Proof.
  intros (e1 & T1 & F1 & P1) (e2 & T2 & F2 & P2). exists (e1 ++ e2).
  rewrite T2, T1, <- app_assoc, forallb_app, F1, F2, popen_attempts_app.
  repeat split. lia.
Qed.

Lemma grows_by_le n m w w' : n <= m -> grows_by n w w' -> grows_by m w w'.
Proof. intros L (e & T & F & P). exists e. repeat split; auto. lia. Qed.

Lemma grows_by_trace n w w' : trace w' = trace w -> grows_by n w w'.
Proof. intros E. exists []. rewrite app_nil_r. cbn. repeat split; [exact E|lia]. Qed.

Lemma start_recording_grows env w path fps :
  grows_by 1 w (fst (Camera.start_recording env w path fps)).
Proof.
  unfold Camera.start_recording.
  destruct (mkdir env _); [apply grows_by_refl|].
  destruct (Camera.get_camera_command env) as [cmd|];
    [|eexists; cbn; split; [reflexivity|]; cbn; split; [reflexivity|lia]].
  destruct (Camera.get_extra_camera_args env) as [extra|];
    [|eexists; cbn; split; [reflexivity|]; cbn; split; [reflexivity|lia]].
  destruct (popen env _) as [[x y]|exc]; cbn [fst].
  - exists [AMkdir (Pathlib.parent path);
            APopen ([cmd; "-t"; "0"; "--codec"; "h264"; "--framerate";
                     Camera.str_int fps; "--inline"; "--nopreview"; "-o";
                     Pathlib.str path] ++ extra)
              (List.length (procs (log w (AMkdir (Pathlib.parent path)))))].
    cbn. rewrite <- app_assoc. cbn. repeat split. lia.
  - exists [AMkdir (Pathlib.parent path);
            APopenFailed ([cmd; "-t"; "0"; "--codec"; "h264"; "--framerate";
                           Camera.str_int fps; "--inline"; "--nopreview"; "-o";
                           Pathlib.str path] ++ extra)].
    cbn. rewrite <- app_assoc. cbn. repeat split. lia.
Qed.

Lemma convert_keeps_files env w h :
  grows_by 0 w (fst (Camera.convert_to_mp4 env w h false)).
Proof.
  unfold Camera.convert_to_mp4.
  destruct (negb (which env "ffmpeg")); [apply grows_by_refl|].
  destruct (Pathlib.with_suffix h ".mp4") as [mp4|]; [|apply grows_by_refl].
  destruct (OS.run env (Camera.ffmpeg_args h mp4)) as [rc|exc] eqn:E1; cbn [fst].
  - destruct (negb (rc =? 0)%Z).
    + eexists. cbn. split; [reflexivity|]. cbn. auto.
    + destruct (OS.run env ["sync"]) as [rc2|exc2]; cbn [andb fst].
      * eexists. cbn. rewrite <- app_assoc. split; [reflexivity|]. cbn. auto.
      * eexists. cbn. rewrite <- app_assoc. split; [reflexivity|]. cbn. auto.
  - eexists. cbn. split; [reflexivity|]. cbn. auto.
Qed.

Lemma stop_recording_grows w p t w' r :
  Camera.stop_recording w (Some p) t = Some (w', r) -> grows_by 0 w w'.
Proof.
  intros H. destruct (stop_recording_trace w p t w' r H) as (extra & Hin & T).
  exists extra. split; [exact T|].
  unfold stop_tiers in Hin. cbn in Hin.
  destruct Hin as [<-|[<-|[<-|[<-|[]]]]]; cbn; auto.
Qed.

Lemma pressed_grows env s : grows_by 1 (snd s) (snd (_on_button_pressed env s)).
Proof.
  destruct s as [svc w]. unfold _on_button_pressed.
  destruct (recording svc w); [apply grows_by_le with 0; [lia|apply grows_by_refl]|].
  pose proof (start_recording_grows env w
                (output_dir svc </> ("rec_" ++ now env ++ ".h264"))
                Camera.DEFAULT_FPS) as G.
  destruct (Camera.start_recording env w _ Camera.DEFAULT_FPS) as [w' [p|exc]];
    exact G.
Qed.

Lemma released_grows env s :
  ends_in (fun s' => grows_by 0 (snd s) (snd s')) (_on_button_released env s).
Proof.
  destruct s as [svc w]. unfold _on_button_released.
  destruct (recording svc w) eqn:Hr; cbn [negb]; [|apply grows_by_refl].
  apply recording_true in Hr. destruct Hr as (p & Hp & _).
  cbn [_proc _status]. rewrite Hp.
  destruct (stop_recording_exits w p Camera.default_timeout) as (w1 & E & _ & _).
  rewrite E. pose proof (stop_recording_grows _ _ _ _ _ E) as G1.
  cbn [_current_h264 set_proc _status].
  destruct (_current_h264 svc) as [h|]; [|exact G1].
  destruct (exists_ env h) as [[|]|exc0]; [|exact G1|exact G1].
  destruct (Pathlib.with_suffix h ".mp4"); [|exact G1].
  pose proof (convert_keeps_files env w1 h) as G2.
  destruct (Camera.convert_to_mp4 env w1 h false) as [w2 [m|exc]];
    cbn [fst] in G2; exact (grows_by_trans 0 0 _ _ _ G1 G2).
Qed.

Lemma feed_grows events : forall s,
  ends_in (fun s' => grows_by (pressed_count events) (snd s) (snd s')) (feed events s).
Proof.
  induction events as [|e events IH]; intros s; [apply grows_by_refl|].
  cbn [feed]. destruct e as [env|env|p rc]; cbn [step pressed_count].
  - pose proof (IH (_on_button_pressed env s)) as H.
    eapply ends_in_weaken; [|exact H].
    intros s' G. exact (grows_by_trans 1 _ _ _ _ (pressed_grows env s) G).
  - pose proof (released_grows env s) as G1.
    destruct (_on_button_released env s) as [[] s1|exc s1|]; cbn in G1.
    + pose proof (IH s1) as H. eapply ends_in_weaken; [|exact H].
      intros s' G. exact (grows_by_trans 0 _ _ _ _ G1 G).
    + cbn. apply grows_by_le with 0; [lia|exact G1].
    + contradiction.
  - pose proof (IH (fst s, exit_on_its_own (snd s) p rc)) as H.
    eapply ends_in_weaken; [|exact H].
    intros s' G.
    apply (grows_by_trans 0 _ (snd s) (exit_on_its_own (snd s) p rc) _);
      [|exact G].
    now apply grows_by_trace.
Qed.

End TraceFacts.

(** X12: the service never deletes a file. Over any sequence of edges
    and process deaths no [unlink] is among the calls it makes: the raw
    [.h264] stays beside the [.mp4], since the Released handler converts
    with [delete_h264=False]. *)
Theorem X12_service_never_deletes :
  forall (events : list Event) (s : Recorder.Sys),
    ends_in (fun s' =>
               exists extra,
                 OS.trace (snd s') = OS.trace (snd s) ++ extra
                 /\ forall p, ~ In (OS.AUnlink p) extra)
      (feed events s).
Proof.
  intros events s. eapply ends_in_weaken; [|apply feed_grows].
  intros s' (extra & T & F & _). exists extra. split; [exact T|].
  intros p Hin. rewrite forallb_forall in F. apply F in Hin. discriminate.
Qed.

(** X13: the service starts at most one capture process per Pressed
    edge: over any sequence of edges and process deaths the number of
    calls of [Popen] (failed ones included) is at most the number of
    Pressed edges; Released edges and process deaths cause none. *)
Theorem X13_one_popen_per_press_at_most :
  forall (events : list Event) (s : Recorder.Sys),
    ends_in (fun s' =>
               popen_attempts (OS.trace (snd s'))
               <= popen_attempts (OS.trace (snd s)) + pressed_count events)
      (feed events s).
Proof.
  intros events s. eapply ends_in_weaken; [|apply feed_grows].
  intros s' (extra & T & _ & P). rewrite T, popen_attempts_app. lia.
Qed.

(** X14: [stop_recording], on any process in any state, returns without
    an error, leaves the process exited and every other process as it
    was, and what it has done is one of: nothing; SIGINT and a wait;
    these and SIGTERM and a wait; these and SIGKILL and a wait without
    timeout. It signals and waits for no process but its own. *)
Theorem X14_stop_touches_only_its_process :
  forall (w : OS.World) (proc : OS.Popen) (timeout : Q),
    exists w' extra,
      Camera.stop_recording w (Some proc) timeout = Some (w', OS.Ok tt)
      /\ OS.poll w' proc <> None
      /\ (forall q, q <> proc -> OS.poll w' q = OS.poll w q)
      /\ OS.trace w' = OS.trace w ++ extra
      /\ In extra (stop_tiers proc timeout).
Proof.
  intros w proc timeout.
  destruct (stop_recording_exits w proc timeout) as (w' & E & Hexit & Hothers).
  destruct (stop_recording_trace w proc timeout w' (OS.Ok tt) E) as (extra & Hin & T).
  exists w', extra. auto.
Qed.

(* ================================================================== *)
(** * The commands *)
(* ================================================================== *)

(** X15: the three commands that need a storage target agree on when
    there is none: the resolver's list is empty exactly when
    [usb-status] exits with 1, exactly when [record-test] exits with 2,
    and exactly when [record-service] exits with 2 without making a
    service. The storage is looked at before the camera, so a missing
    camera tool does not change these codes, and [record-test] then
    calls nothing outside the program. *)
Theorem X15_commands_agree_on_no_target :
  forall (senv : Storage.Env) (env : OS.Env) (fake gpiozero_ok : bool) (pin : Z)
         (line0 : bool) (env0 : OS.Env) (ticks : list Recorder.Tick) (fin : OS.Env)
         (seconds : Z) (w : OS.World),
    let out := Storage.find_usb_mount_targets senv
                 Storage.default_recordings_dir_name
                 Storage.default_prefer_label_prefixes in
    (out = [] <-> snd (Cli._cmd_usb_status senv) = 1%Z)
    /\ (out = [] <-> snd (Cli._cmd_record_test senv env seconds w) = 2%Z)
    /\ (out = [] <->
        Cli._cmd_record_service senv env fake gpiozero_ok pin line0 env0 ticks fin w
        = Cli.Exit 2)
    /\ (out = [] -> fst (fst (Cli._cmd_record_test senv env seconds w)) = w).
Proof.
  intros senv env fake ok pin line0 env0 ticks fin seconds w out.
  unfold Cli._cmd_usb_status, Cli._cmd_record_test, Cli._cmd_record_service,
    Storage.choose_usb_target.
  fold out. destruct out as [|t l].
  - cbn. repeat split; reflexivity.
  - cbn [snd].
    split; [split; [discriminate|cbn; discriminate]|].
    split; [split; [discriminate|]|split; [split; [discriminate|]|discriminate]].
    + destruct (Camera.camera_sanity_check env); [|cbn; discriminate].
      destruct (Camera.record_h264 env w _ seconds None None None) as [w' [u|exc]];
        cbn; discriminate.
    + destruct (Camera.camera_sanity_check env); discriminate.
Qed.

(** X16: [record-test] exits with 0 only after a capture that ran to its
    end: there is a target and a camera tool, the directory of the target
    was made, the tool was run once, for the given number of seconds in
    milliseconds, writing [test_<stamp>.h264] directly into the target
    directory, and it returned 0. No process is left behind. *)
Theorem X16_record_test_success :
  forall (senv : Storage.Env) (env : OS.Env) (seconds : Z) (w : OS.World),
    snd (Cli._cmd_record_test senv env seconds w) = 0%Z ->
    exists target cmd extra,
      Storage.choose_usb_target senv = Some target
      /\ Camera.get_camera_command env = OS.Ok cmd
      /\ OS.extra_camera_args env = OS.Ok extra
      /\ (let out := Storage.mountpoint target </> ("test_" ++ OS.now env ++ ".h264") in
          OS.trace (fst (fst (Cli._cmd_record_test senv env seconds w)))
          = OS.trace w
            ++ [OS.AMkdir (Pathlib.parent out);
                OS.ARun ([cmd; "-t"; Camera.str_int (seconds * 1000); "-o";
                          Pathlib.str out] ++ extra)
                  (OS.Ok 0%Z)])
      /\ OS.procs (fst (fst (Cli._cmd_record_test senv env seconds w))) = OS.procs w.
Proof.
  intros senv env seconds w. unfold Cli._cmd_record_test.
  destruct (Storage.choose_usb_target senv) as [target|]; [|cbn; discriminate].
  unfold Camera.camera_sanity_check.
  destruct (Camera.get_camera_command env) as [cmd|exc] eqn:Ec; [|cbn; discriminate].
  unfold Camera.record_h264. rewrite Ec.
  destruct (OS.mkdir env _); [cbn; discriminate|].
  unfold Camera.get_extra_camera_args.
  destruct (OS.extra_camera_args env) as [extra|exc] eqn:Ee; [|cbn; discriminate].
  cbv zeta.
  destruct (OS.run env _) as [rc|exc] eqn:Er; [|cbn; discriminate].
  destruct (rc =? 0)%Z eqn:Erc; cbn [negb]; [|cbn; discriminate].
  apply Z.eqb_eq in Erc. subst rc. intros _.
  exists target, cmd, extra. cbn [fst snd].
  repeat split; try reflexivity.
  cbn. rewrite <- app_assoc. reflexivity.
Qed.

Lemma X16_record_test_success_witness :
  exists target cmd extra,
    Storage.choose_usb_target Examples.one_stick = Some target
    /\ Camera.get_camera_command (Examples.good_env "20240101_120000") = OS.Ok cmd
    /\ OS.extra_camera_args (Examples.good_env "20240101_120000") = OS.Ok extra
    /\ (let out := Storage.mountpoint target </> ("test_" ++ "20240101_120000" ++ ".h264") in
        OS.trace (fst (fst (Cli._cmd_record_test Examples.one_stick
                              (Examples.good_env "20240101_120000") 10
                              Examples.empty_world)))
        = OS.trace Examples.empty_world
          ++ [OS.AMkdir (Pathlib.parent out);
              OS.ARun ([cmd; "-t"; Camera.str_int (10 * 1000); "-o";
                        Pathlib.str out] ++ extra)
                (OS.Ok 0%Z)])
    /\ OS.procs (fst (fst (Cli._cmd_record_test Examples.one_stick
                            (Examples.good_env "20240101_120000") 10
                            Examples.empty_world)))
       = OS.procs Examples.empty_world.
Proof.
  exact (X16_record_test_success Examples.one_stick
           (Examples.good_env "20240101_120000") 10 Examples.empty_world eq_refl).
Defined.


(* ================================================================== *)
(** * Shutdown of the service *)
(* ================================================================== *)

Section ShutdownFacts.

Import OS Recorder.






End ShutdownFacts.


